(** * DataMan: lazy multi-representation data accessor

    A shallow embedding of [client/data-man-api.js] (the browser [DataMan])
    and [server/data-man-buffer.js] ([DataMan.Buffer]) together with the
    properties stated about them.

    JavaScript objects become records with optional fields, callbacks become
    functions into a small state-and-exception monad, and the host
    primitives the code calls into (Blob, FileReader, XMLHttpRequest, atob,
    Buffer#toString) are modelled next to the code that uses them. *)

From Stdlib Require Import ZArith NArith List String Ascii Bool Lia.
From Stdlib Require Import Strings.Byte.
From Stdlib Require Import DecimalString.
Import ListNotations.

Local Open Scope string_scope.
Local Open Scope Z_scope.

Set Implicit Arguments.

(* ================================================================== *)
(** ** Bytes and JavaScript string primitives *)

Definition bytes := list byte.

(** Storing a number into a [Uint8Array] keeps its low eight bits. *)
Definition u8 (n : N) : byte :=
  match Byte.of_N (n mod 256) with
  | Some b => b
  | None => x00
  end.

Definition byte_length (l : bytes) : Z := Z.of_nat (List.length l).

Module JsString.

Definition len (s : string) : Z := Z.of_nat (String.length s).

(** Clamping of a relative index, shared by [String.prototype.slice] and
    [Blob.prototype.slice]: negative indices count from the end. *)
Definition rel_index (size i : Z) : Z :=
  if i <? 0 then Z.max (size + i) 0 else Z.min i size.

(** [s.slice(from, to)]. *)
Definition slice (s : string) (from to : Z) : string :=
  let a := rel_index (len s) from in
  let b := rel_index (len s) to in
  String.substring (Z.to_nat a) (Z.to_nat (Z.max (b - a) 0)) s.

(** [s.indexOf(c)] for a one-character needle; [-1] when absent. *)
Fixpoint indexOf_from (c : ascii) (s : string) (i : Z) : Z :=
  match s with
  | EmptyString => -1
  | String a s' => if Ascii.eqb a c then i else indexOf_from c s' (i + 1)
  end.

Definition indexOf (c : ascii) (s : string) : Z := indexOf_from c s 0.

(** [s.split(c)]: the pieces between successive occurrences of [c]. *)
Fixpoint split (c : ascii) (s : string) : list string :=
  match s with
  | EmptyString => [EmptyString]
  | String a s' =>
      if Ascii.eqb a c then EmptyString :: split c s'
      else match split c s' with
           | p :: ps => String a p :: ps
           | [] => [String a EmptyString]
           end
  end.

(** A string is falsy exactly when it is empty. *)
Definition truthy (s : string) : bool :=
  match s with EmptyString => false | _ => true end.

(** [String(n)] for an integer. *)
Definition of_Z (n : Z) : string := NilZero.string_of_int (Z.to_int n).

End JsString.

(** Truthiness of a property that is either [undefined] or a string. *)
Definition truthy_str (o : option string) : bool :=
  match o with
  | Some s => JsString.truthy s
  | None => false
  end.

(* ================================================================== *)
(** ** Base64, as provided by the hosts ([Buffer#toString("base64")] on
    the server, [atob] and [FileReader] in the browser) *)

Module Base64.

Definition alphabet : string :=
  "ABCDEFGHIJKLMNOPQRSTUVWXYZabcdefghijklmnopqrstuvwxyz0123456789+/".

Definition digit (n : N) : ascii :=
  match String.get (N.to_nat n) alphabet with
  | Some c => c
  | None => "="%char
  end.

Definition sextet (n : N) (k : N) : ascii :=
  digit (N.land (N.shiftr n (6 * k)) 63).

Definition pack (a b c : byte) : N :=
  N.lor (N.shiftl (Byte.to_N a) 16)
        (N.lor (N.shiftl (Byte.to_N b) 8) (Byte.to_N c)).

(** RFC 4648 encoding with padding. *)
Fixpoint encode (l : bytes) : string :=
  match l with
  | [] => ""
  | [a] =>
      let n := pack a x00 x00 in
      String (sextet n 3) (String (sextet n 2) "==")
  | [a; b] =>
      let n := pack a b x00 in
      String (sextet n 3) (String (sextet n 2) (String (sextet n 1) "="))
  | a :: b :: c :: rest =>
      let n := pack a b c in
      String (sextet n 3) (String (sextet n 2)
        (String (sextet n 1) (String (sextet n 0) (encode rest))))
  end.

(** Value of a base64 digit, [None] for a character outside the
    alphabet. *)
Definition value (c : ascii) : option N :=
  let n := N_of_ascii c in
  if ((65 <=? n) && (n <=? 90))%N then Some (n - 65)%N
  else if ((97 <=? n) && (n <=? 122))%N then Some (n - 71)%N
  else if ((48 <=? n) && (n <=? 57))%N then Some (n + 4)%N
  else if (n =? 43)%N then Some 62%N
  else if (n =? 47)%N then Some 63%N
  else None.

Definition is_space (c : ascii) : bool :=
  let n := N_of_ascii c in
  ((n =? 9) || (n =? 10) || (n =? 12) || (n =? 13) || (n =? 32))%N.

Fixpoint strip_space (s : string) : string :=
  match s with
  | EmptyString => EmptyString
  | String c s' =>
      if is_space c then strip_space s' else String c (strip_space s')
  end.

Fixpoint values (s : string) : option (list N) :=
  match s with
  | EmptyString => Some []
  | String c s' =>
      match value c, values s' with
      | Some v, Some vs => Some (v :: vs)
      | _, _ => None
      end
  end.

(** Up to two trailing [=] are dropped when the length is a multiple of
    four. *)
Definition strip_padding (s : string) : string :=
  let n := String.length s in
  if (Nat.eqb (n mod 4) 0 && Nat.leb 1 n)%bool then
    if String.eqb (String.substring (n - 2) 2 s) "==" then
      String.substring 0 (n - 2) s
    else if String.eqb (String.substring (n - 1) 1 s) "=" then
      String.substring 0 (n - 1) s
    else s
  else s.

Definition chr (n : N) : ascii := ascii_of_N (N.land n 255).

Fixpoint decode_values (l : list N) : string :=
  match l with
  | a :: b :: c :: d :: rest =>
      let n := (N.shiftl a 18 + N.shiftl b 12 + N.shiftl c 6 + d)%N in
      String (chr (N.shiftr n 16)) (String (chr (N.shiftr n 8))
        (String (chr n) (decode_values rest)))
  | [a; b; c] =>
      let n := (N.shiftl a 18 + N.shiftl b 12 + N.shiftl c 6)%N in
      String (chr (N.shiftr n 16)) (String (chr (N.shiftr n 8)) "")
  | [a; b] =>
      let n := (N.shiftl a 18 + N.shiftl b 12)%N in
      String (chr (N.shiftr n 16)) ""
  | _ => ""
  end.

(** The forgiving base64 decode behind [atob]: [None] stands for the
    [InvalidCharacterError] it raises. *)
Definition decode (s : string) : option string :=
  let s := strip_padding (strip_space s) in
  if Nat.eqb (String.length s mod 4) 1 then None
  else option_map decode_values (values s).

End Base64.

(* ================================================================== *)
(** ** Errors and the state-and-exception monad *)

(** Values that travel in the error slot of a callback or are thrown. *)
Inductive Err : Type :=
| JsError (msg : string)        (* [new Error(msg)] *)
| MeteorError (msg : string)    (* an instance of [Meteor.Error] *)
| ErrorEvent (src : string)     (* the event handed to an [onerror] handler *)
| InvalidCharacterError         (* raised by [atob] *)
| ReferenceError (ident : string)
| TypeError (msg : string).

Inductive Outcome (A : Type) : Type :=
| Returned (a : A)
| Threw (e : Err).

Arguments Returned {A} a.
Arguments Threw {A} e.

(** A computation over a store [S]: it returns or throws, and leaves a
    store behind either way. *)
Definition M (S A : Type) : Type := S -> Outcome A * S.

Definition ret {S A} (a : A) : M S A := fun w => (Returned a, w).

Definition throw {S A} (e : Err) : M S A := fun w => (Threw e, w).

Definition bind {S A B} (m : M S A) (k : A -> M S B) : M S B :=
  fun w =>
    match m w with
    | (Returned a, w') => k a w'
    | (Threw e, w') => (Threw e, w')
    end.

Definition get {S} : M S S := fun w => (Returned w, w).

Definition modify {S} (f : S -> S) : M S unit := fun w => (Returned tt, f w).

Declare Scope js_scope.
Delimit Scope js_scope with js.

Notation "x <- m ;; k" := (bind m (fun x => k))
  (at level 100, m at next level, right associativity) : js_scope.
Notation "m ;; k" := (bind m (fun _ => k))
  (at level 100, right associativity) : js_scope.

(** A Node-style callback [function (error, result)]. *)
Definition Callback (S R : Type) : Type := option Err -> option R -> M S unit.

(* ================================================================== *)
(** ** Blobs *)

Record Blob : Type := mkBlob { blob_bytes : bytes; blob_type : string }.

Definition blob_size (b : Blob) : Z := byte_length (blob_bytes b).

Module BlobApi.

Definition printable (c : ascii) : bool :=
  let n := N_of_ascii c in ((32 <=? n) && (n <=? 126))%N.

Definition lower (c : ascii) : ascii :=
  let n := N_of_ascii c in
  if ((65 <=? n) && (n <=? 90))%N then ascii_of_N (n + 32) else c.

Fixpoint all_printable (s : string) : bool :=
  match s with
  | EmptyString => true
  | String c s' => printable c && all_printable s'
  end.

Fixpoint lowercase (s : string) : string :=
  match s with
  | EmptyString => EmptyString
  | String c s' => String (lower c) (lowercase s')
  end.

(** The [type] option of the Blob constructor and of [slice]: lower-cased,
    or empty when absent or not printable ASCII. *)
Definition normalize_type (t : option string) : string :=
  match t with
  | Some s => if all_printable s then lowercase s else ""
  | None => ""
  end.

(** [new Blob([part], {type: t})] for a binary part. *)
Definition create (part : bytes) (t : option string) : Blob :=
  mkBlob part (normalize_type t).

(** [blob.slice(start, end, contentType)]: a negative index counts from
    the end, both are clamped to the size, and an empty span results when
    the end does not exceed the start. *)
Definition slice (b : Blob) (start stop : Z) (t : option string) : Blob :=
  let size := blob_size b in
  let a := JsString.rel_index size start in
  let z := JsString.rel_index size stop in
  let span := Z.max (z - a) 0 in
  mkBlob (firstn (Z.to_nat span) (skipn (Z.to_nat a) (blob_bytes b)))
         (normalize_type t).

End BlobApi.

(** Results that reach the second slot of a callback. *)
Inductive Value : Type :=
| VBlob (b : Blob)
| VBytes (l : bytes)
| VString (s : string)
| VNumber (n : Z).

(** One invocation of an observing callback: its two arguments. *)
Definition Delivery : Type := (option Err * option Value)%type.

(** The bytes of a string whose characters are all below 256, as pushed
    one [charCodeAt] at a time into a [Uint8Array]. *)
Definition char_codes (s : string) : bytes :=
  map (fun c => u8 (N_of_ascii c)) (list_ascii_of_string s).

(** The slice of [l] from index [a] up to, but excluding, index [b]. *)
Definition slice_bytes (l : bytes) (a b : Z) : bytes :=
  firstn (Z.to_nat (b - a)) (skipn (Z.to_nat a) l).

(* ================================================================== *)
(** ** The browser accessor, [client/data-man-api.js] *)

Module Client.

Import JsString.
Local Open Scope js_scope.

(** Shapes of the value handed to the constructor. *)
Inductive JsData : Type :=
| DFile (b : Blob)            (* a [File], which is also a [Blob] *)
| DBlob (b : Blob)
| DArrayBuffer (l : bytes)
| DUint8Array (l : bytes)
| DString (s : string)
| DNumber (n : Z)
| DUndefined
| DNull
| DObject.

Inductive XhrOutcome : Type :=
| XhrLoad (response : Blob)
| XhrError (evt : Err).

(** What the host provides: which globals are defined, and how the
    asynchronous primitives answer. [EJSON_isBinary] belongs to Meteor's
    EJSON package and is taken as given. *)
Record Env : Type := mkEnv {
  has_File : bool;
  has_Blob : bool;
  has_ArrayBuffer : bool;
  EJSON_isBinary : JsData -> bool;
  has_FileReader : bool;
  has_window : bool;
  has_window_saveAs : bool;
  has_slice : bool;
  has_webkitSlice : bool;
  has_mozSlice : bool;
  xhr_response : string -> XhrOutcome;
  reader_error : Blob -> option Err;
  reader_dataURL : Blob -> string
}.

(** The fields of [self]. *)
Record Instance : Type := mkInstance {
  blob : option Blob;
  dataUri : option string;
  url : option string;
  type : option string;
  _size : option Z
}.

Definition empty : Instance := mkInstance None None None None None.

Definition set_blob (b : Blob) (o : Instance) : Instance :=
  mkInstance (Some b) (dataUri o) (url o) (type o) (_size o).
Definition set_dataUri (s : string) (o : Instance) : Instance :=
  mkInstance (blob o) (Some s) (url o) (type o) (_size o).
Definition set_url (s : string) (o : Instance) : Instance :=
  mkInstance (blob o) (dataUri o) (Some s) (type o) (_size o).
Definition set_type (t : option string) (o : Instance) : Instance :=
  mkInstance (blob o) (dataUri o) (url o) t (_size o).
Definition set_size (n : Z) (o : Instance) : Instance :=
  mkInstance (blob o) (dataUri o) (url o) (type o) (Some n).

(** Calls into host primitives, in the order they happen. *)
Inductive IoEvent : Type :=
| IoXhrGet (u : string)
| IoAtob (arg : string)
| IoReadAsArrayBuffer (b : Blob)
| IoReadAsDataURL (b : Blob)
| IoSaveAs (b : Blob) (filename : option string)
| IoConsoleError (msg : string).

(** The store: the instance, the trace of host calls, the exceptions that
    escaped from an event handler, and what observing callbacks saw. *)
Record World : Type := mkWorld {
  self : Instance;
  io : list IoEvent;
  uncaught : list Err;
  delivered : list Delivery
}.

Definition fresh (o : Instance) : World := mkWorld o [] [] [].

Definition on_self (f : Instance -> Instance) (w : World) : World :=
  mkWorld (f (self w)) (io w) (uncaught w) (delivered w).

Definition traced (e : IoEvent) (w : World) : World :=
  mkWorld (self w) (io w ++ [e]) (uncaught w) (delivered w).

Definition escape (e : Err) (w : World) : World :=
  mkWorld (self w) (io w) (uncaught w ++ [e]) (delivered w).

Definition seen (d : Delivery) (w : World) : World :=
  mkWorld (self w) (io w) (uncaught w) (delivered w ++ [d]).

Definition update_self (f : Instance -> Instance) : M World unit :=
  modify (on_self f).

Definition log_io (e : IoEvent) : M World unit := modify (traced e).

(** A callback that only records what it is handed. *)
Definition observe {R} (inj : R -> Value) : Callback World R :=
  fun e r => modify (seen (e, option_map inj r)).

(** An event handler runs after the call that registered it has returned:
    what it throws does not reach that caller. Handlers are run to
    completion at the point of registration, so calls made one after the
    other do not overlap. *)
Definition async (handler : M World unit) : M World unit :=
  fun w =>
    match handler w with
    | (Returned tt, w') => (Returned tt, w')
    | (Threw e, w') => (Returned tt, escape e w')
    end.

(** [xhr.open('GET', u, true); xhr.responseType = "blob"; xhr.send()]. *)
Definition xhr_get (env : Env) (u : string)
    (onload : Blob -> M World unit) (onerror : Err -> M World unit)
    : M World unit :=
  log_io (IoXhrGet u) ;;
  match xhr_response env u with
  | XhrLoad response => async (onload response)
  | XhrError evt => async (onerror evt)
  end.

(** [reader.readAsArrayBuffer(b)]. *)
Definition readAsArrayBuffer (env : Env) (b : Blob)
    (onload : bytes -> M World unit) (onerror : Err -> M World unit)
    : M World unit :=
  log_io (IoReadAsArrayBuffer b) ;;
  match reader_error env b with
  | None => async (onload (blob_bytes b))
  | Some evt => async (onerror evt)
  end.

(** [reader.readAsDataURL(b)]. *)
Definition readAsDataURL (env : Env) (b : Blob)
    (onload : string -> M World unit) (onerror : Err -> M World unit)
    : M World unit :=
  log_io (IoReadAsDataURL b) ;;
  match reader_error env b with
  | None => async (onload (reader_dataURL env b))
  | Some evt => async (onerror evt)
  end.

(** Arguments of the public methods, which inspect them with [typeof]
    and truthiness. *)
Inductive Arg (R : Type) : Type :=
| ANumber (n : Z)
| AFunction (f : Callback World R)
| AString (s : string)
| AUndefined
| ANull
| AObject.

Arguments ANumber {R} n.
Arguments AFunction {R} f.
Arguments AString {R} s.
Arguments AUndefined {R}.
Arguments ANull {R}.
Arguments AObject {R}.

Definition is_function {R} (a : Arg R) : bool :=
  match a with AFunction _ => true | _ => false end.

Definition is_number {R} (a : Arg R) : bool :=
  match a with ANumber _ => true | _ => false end.

Definition truthy {R} (a : Arg R) : bool :=
  match a with
  | ANumber n => negb (n =? 0)
  | AFunction _ => true
  | AString s => JsString.truthy s
  | AUndefined => false
  | ANull => false
  | AObject => true
  end.

(** [callback(error, result)] on an argument that may not be callable. *)
Definition call {R} (callback : Arg R) (error : option Err)
    (result : option R) : M World unit :=
  match callback with
  | AFunction f => f error result
  | _ => throw (TypeError "callback is not a function")
  end.

(* ---------------------------------------------------------------- *)
(** *** Error values of the source *)

Definition UnsupportedInput : Err :=
  JsError "DataMan constructor received data that it doesn't support".
Definition UnrecognizedInput : Err :=
  JsError "DataMan constructor received unrecognized data string".
Definition NoBlobSupport : Err :=
  JsError "Browser must support Blobs to handle an ArrayBuffer or Uint8Array".
Definition NoFileReader : Err :=
  JsError "Browser does not support FileReader".
Definition NoSlice : Err :=
  JsError "Browser does not support File.slice".
Definition NoWindow : Err :=
  JsError "window must be defined to use saveLocal".
Definition RangeOutOfBounds (size : Z) : Err :=
  JsError ("DataMan.getBinary: start position beyond end of data ("
           ++ of_Z size ++ ")").
Definition MissingCallback : Err :=
  JsError "getDataUri requires callback function".
Definition SizeNeedsCallback : Err :=
  JsError "On the client, DataMan.size requires a callback".

(* ---------------------------------------------------------------- *)
(** *** The constructor *)

(** [data instanceof File], yielding the object when it holds. *)
Definition as_File (d : JsData) : option Blob :=
  match d with DFile b => Some b | _ => None end.

(** [data instanceof Blob]; a [File] is one too. *)
Definition as_Blob (d : JsData) : option Blob :=
  match d with DFile b | DBlob b => Some b | _ => None end.

Definition instanceof_ArrayBuffer (d : JsData) : bool :=
  match d with DArrayBuffer _ => true | _ => false end.

(** The bytes the Blob constructor takes from one part: binary parts as
    they are, anything else through its string conversion. *)
Definition part_bytes (d : JsData) : bytes :=
  match d with
  | DFile b | DBlob b => blob_bytes b
  | DArrayBuffer l | DUint8Array l => l
  | DString s => char_codes s
  | DNumber n => char_codes (of_Z n)
  | DUndefined => char_codes "undefined"
  | DNull => char_codes "null"
  | DObject => char_codes "[object Object]"
  end.

Definition DataMan (env : Env) (data : JsData) (type_ : option string)
    : Outcome Instance :=
  match (if has_File env then as_File data else None) with
  | Some f => Returned (set_type (Some (blob_type f)) (set_blob f empty))
  | None =>
  match (if has_Blob env then as_Blob data else None) with
  | Some b => Returned (set_type (Some (blob_type b)) (set_blob b empty))
  | None =>
  if (has_ArrayBuffer env && instanceof_ArrayBuffer data)
     || EJSON_isBinary env data then
    if negb (has_Blob env) then Threw NoBlobSupport
    else Returned (set_type type_
                     (set_blob (BlobApi.create (part_bytes data) type_)
                               empty))
  else
  match data with
  | DString s =>
      if String.eqb (slice s 0 5) "data:" then
        Returned (set_type (Some (slice s 5 (indexOf ";" s)))
                           (set_dataUri s empty))
      else if String.eqb (slice s 0 5) "http:"
              || String.eqb (slice s 0 6) "https:" then
        Returned (set_type type_ (set_url s empty))
      else Threw UnrecognizedInput
  | _ => Threw UnsupportedInput
  end
  end
  end.

(* ---------------------------------------------------------------- *)
(** *** Methods *)

(** [dataURI.split(',')[1]] as [atob] receives it: a missing piece is
    [undefined], which [atob] converts to a string. *)
Definition payload (dataURI : string) : string :=
  match nth_error (split "," dataURI) 1 with
  | Some p => p
  | None => "undefined"
  end.

Definition dataURItoBlob (env : Env) (dataURI : string)
    (dataTYPE : option string) : M World Blob :=
  let arg := payload dataURI in
  log_io (IoAtob arg) ;;
  match Base64.decode arg with
  | None => throw InvalidCharacterError
  | Some str =>
      if has_Blob env then ret (BlobApi.create (char_codes str) dataTYPE)
      else throw (ReferenceError "Blob")
  end.

Definition defaultCallback {R} : Callback World R :=
  fun err _ =>
    match err with
    | Some (MeteorError msg) => log_io (IoConsoleError msg)
    | Some e => throw e
    | None => ret tt
    end.

Definition getBlob (env : Env) (callback : Callback World Blob)
    : M World unit :=
  w <- get ;;
  match blob (self w) with
  | Some b => callback None (Some b)
  | None =>
      if truthy_str (dataUri (self w)) then
        b <- dataURItoBlob env
               (match dataUri (self w) with Some u => u | None => "" end)
               (type (self w)) ;;
        update_self (set_blob b) ;;
        callback None (Some b)
      else if truthy_str (url (self w)) then
        xhr_get env (match url (self w) with Some u => u | None => "" end)
          (fun response =>
             update_self (set_blob response) ;;
             callback None (Some response))
          (fun err => callback (Some err) None)
      else ret tt
  end.

(** [blob.size] on the second argument of a [getBlob] callback. *)
Definition the_blob (b : option Blob) : M World Blob :=
  match b with
  | Some b => ret b
  | None => throw (TypeError "Cannot read property of undefined")
  end.

Definition getBinary (env : Env) (start end_ callback : Arg bytes)
    : M World unit :=
  let callback := if is_function start then start else callback in
  let callback := if truthy callback then callback
                  else AFunction defaultCallback in
  let read (b : Blob) : M World unit :=
    if negb (has_FileReader env) then call callback (Some NoFileReader) None
    else readAsArrayBuffer env b
           (fun result => call callback None (Some result))
           (fun err => call callback (Some err) None) in
  getBlob env (fun error b =>
    match error with
    | Some e => call callback (Some e) None
    | None =>
        b <- the_blob b ;;
        match start, end_ with
        | ANumber start, ANumber end_ =>
            let size := blob_size b in
            if start >=? size then
              call callback (Some (RangeOutOfBounds size)) None
            else
              let end_ := Z.min size end_ in
              if has_slice env || has_webkitSlice env || has_mozSlice env
              then w <- get ;;
                   read (BlobApi.slice b start end_ (type (self w)))
              else call callback (Some NoSlice) None
        | _, _ => read b
        end
    end).

Definition window_saveAs (env : Env) (b : Blob)
    (filename : option string) : M World unit :=
  if has_window_saveAs env then log_io (IoSaveAs b filename)
  else throw (TypeError "window.saveAs is not a function").

Definition saveAs (env : Env) (filename : option string) : M World unit :=
  if negb (has_window env) then throw NoWindow
  else getBlob env (fun error b =>
         match error with
         | Some e => throw e
         | None => b <- the_blob b ;; window_saveAs env b filename
         end).

Definition getDataUri (env : Env) (callback : Arg string) : M World unit :=
  if negb (is_function callback) then throw MissingCallback
  else if negb (has_FileReader env) then
    call callback (Some NoFileReader) None
  else
    getBlob env (fun error b =>
      match error with
      | Some e => call callback (Some e) None
      | None =>
          b <- the_blob b ;;
          readAsDataURL env b
            (fun result =>
               update_self (set_dataUri result) ;;
               call callback None (Some result))
            (fun err => call callback (Some err) None)
      end).

(** [size] returns [self._size] when it is cached and the (undefined)
    result of [getBlob] otherwise. *)
Definition size (env : Env) (callback : Arg Z) : M World (option Z) :=
  if negb (truthy callback) then throw SizeNeedsCallback
  else
    w <- get ;;
    match _size (self w) with
    | Some n => ret (Some n)
    | None =>
        getBlob env (fun error b =>
          match error with
          | Some e => call callback (Some e) None
          | None =>
              b <- the_blob b ;;
              update_self (set_size (blob_size b)) ;;
              call callback None (Some (blob_size b))
          end) ;;
        ret None
    end.

(* ---------------------------------------------------------------- *)
(** *** Vocabulary for the properties *)

(** [Materialises env w b w1]: in store [w] the instance has data, namely
    the blob [b] that [getBlob] hands over, leaving store [w1]. *)
Inductive Materialises (env : Env) (w : World) : Blob -> World -> Prop :=
| from_blob b :
    blob (self w) = Some b ->
    Materialises env w b w
| from_dataUri u str :
    blob (self w) = None ->
    dataUri (self w) = Some u ->
    JsString.truthy u = true ->
    Base64.decode (payload u) = Some str ->
    has_Blob env = true ->
    Materialises env w
      (BlobApi.create (char_codes str) (type (self w)))
      (on_self (set_blob (BlobApi.create (char_codes str) (type (self w))))
               (traced (IoAtob (payload u)) w))
| from_url u response :
    blob (self w) = None ->
    truthy_str (dataUri (self w)) = false ->
    url (self w) = Some u ->
    JsString.truthy u = true ->
    xhr_response env u = XhrLoad response ->
    Materialises env w response
      (on_self (set_blob response) (traced (IoXhrGet u) w)).

(** What is said of a ranged read of an instance whose data is [b]:
    the callback receives [min end_ size - start] bytes, the slice from
    [start] up to [min end_ size]. *)
Definition range_delivered (env : Env) (w : World) (b : Blob)
    (start end_ : Z) : Prop :=
  exists w' data,
    getBinary env (ANumber start) (ANumber end_)
              (AFunction (observe VBytes)) w = (Returned tt, w')
    /\ delivered w' = (delivered w ++ [(None, Some (VBytes data))])%list
    /\ byte_length data = Z.min end_ (blob_size b) - start
    /\ data = slice_bytes (blob_bytes b) start (Z.min end_ (blob_size b)).

(** [TransportFails env w u evt]: the instance in [w] has nothing but
    the URL [u] to go by, and fetching [u] fails with [evt]. *)
Definition TransportFails (env : Env) (w : World) (u : string) (evt : Err)
    : Prop :=
  blob (self w) = None
  /\ truthy_str (dataUri (self w)) = false
  /\ url (self w) = Some u
  /\ JsString.truthy u = true
  /\ xhr_response env u = XhrError evt.

(** Accessor calls made with observing callbacks. *)
Inductive Call : Type :=
| CallGetBlob
| CallGetBinary (start end_ : option Z)
| CallSaveAs (filename : option string)
| CallGetDataUri
| CallSize.

Definition number_arg {R} (o : option Z) : Arg R :=
  match o with
  | Some n => ANumber n
  | None => AUndefined
  end.

Definition perform (env : Env) (c : Call) : M World unit :=
  match c with
  | CallGetBlob => getBlob env (observe VBlob)
  | CallGetBinary s e =>
      getBinary env (number_arg s) (number_arg e)
                (AFunction (observe VBytes))
  | CallSaveAs f => saveAs env f
  | CallGetDataUri => getDataUri env (AFunction (observe VString))
  | CallSize => size env (AFunction (observe VNumber)) ;; ret tt
  end.

(** One call after the other, each from the caller's top level. *)
Fixpoint perform_all (env : Env) (cs : list Call) (w : World) : World :=
  match cs with
  | [] => w
  | c :: cs' => perform_all env cs' (snd (perform env c w))
  end.

(** The source fields an accessor call has to leave alone: a blob that is
    set stays the same blob, the URL and the type keep their values, and a
    data URI that is set stays set. *)
Definition kept (o o' : Instance) : Prop :=
  (forall b, blob o = Some b -> blob o' = Some b)
  /\ url o' = url o
  /\ type o' = type o
  /\ (dataUri o <> None -> dataUri o' <> None).

(** A computation keeps the source fields when every run of it does. *)
Definition keeps {A} (m : M World A) : Prop :=
  forall w, kept (self w) (self (snd (m w))).

(** **** The classification of section 4.1 *)

Inductive SourceKind : Type := BlobReference | DataURI | RemoteURL.

Inductive Fault : Type :=
| UnsupportedInputFault
| UnrecognizedInputFault
| UnsupportedEnvironmentFault
| OtherFault.

Definition Classification : Type :=
  (SourceKind * option string + Fault)%type.

(** The characters of [s] before the first [c]. *)
Fixpoint before (c : ascii) (s : string) : string :=
  match s with
  | EmptyString => EmptyString
  | String a s' => if Ascii.eqb a c then EmptyString
                   else String a (before c s')
  end.

Fixpoint drop (n : nat) (s : string) : string :=
  match n, s with
  | O, _ => s
  | S n', String _ s' => drop n' s'
  | S _, EmptyString => EmptyString
  end.

Fixpoint contains (c : ascii) (s : string) : bool :=
  match s with
  | EmptyString => false
  | String a s' => Ascii.eqb a c || contains c s'
  end.

Definition is_file_handle (env : Env) (d : JsData) : bool :=
  has_File env && match d with DFile _ => true | _ => false end.

Definition is_blob_handle (env : Env) (d : JsData) : bool :=
  has_Blob env && match d with DFile _ | DBlob _ => true | _ => false end.

Definition is_binary_data (env : Env) (d : JsData) : bool :=
  (has_ArrayBuffer env && match d with DArrayBuffer _ => true | _ => false end)
  || EJSON_isBinary env d.

Definition declared_type (d : JsData) : option string :=
  match d with
  | DFile b | DBlob b => Some (blob_type b)
  | _ => None
  end.

(** The rules as the specification words them, in its order: file
    handle, blob handle, byte array or binary data, [data:] string,
    [http:] or [https:] string, anything else. *)
Definition classify (env : Env) (data : JsData) (hint : option string)
    : Classification :=
  if is_file_handle env data then inl (BlobReference, declared_type data)
  else if is_blob_handle env data then
    inl (BlobReference, declared_type data)
  else if is_binary_data env data then
    if has_Blob env then inl (BlobReference, hint)
    else inr UnsupportedEnvironmentFault
  else
    match data with
    | DString s =>
        if String.prefix "data:" s then
          inl (DataURI, Some (before ";" (drop 5 s)))
        else if String.prefix "http:" s || String.prefix "https:" s then
          inl (RemoteURL, hint)
        else inr UnrecognizedInputFault
    | _ => inr UnsupportedInputFault
    end.

(** A classification without the type: the source kind or the fault. *)
Definition kind_of (c : Classification) : SourceKind + Fault :=
  match c with
  | inl (k, _) => inl k
  | inr f => inr f
  end.

(** A [data:] string names its type when a [;] follows the prefix. *)
Definition names_its_type (data : JsData) : bool :=
  match data with
  | DString s =>
      if String.prefix "data:" s then contains ";" s else true
  | _ => true
  end.

Definition source_kind (o : Instance) : option SourceKind :=
  match blob o, dataUri o, url o with
  | Some _, None, None => Some BlobReference
  | None, Some _, None => Some DataURI
  | None, None, Some _ => Some RemoteURL
  | _, _, _ => None
  end.

Definition fault_of (e : Err) : Fault :=
  match e with
  | JsError msg =>
      if String.eqb msg
           "DataMan constructor received data that it doesn't support"
      then UnsupportedInputFault
      else if String.eqb msg
           "DataMan constructor received unrecognized data string"
      then UnrecognizedInputFault
      else if String.eqb msg
           "Browser must support Blobs to handle an ArrayBuffer or Uint8Array"
      then UnsupportedEnvironmentFault
      else OtherFault
  | _ => OtherFault
  end.

(** What a run of the constructor amounts to. *)
Definition classification_of (r : Outcome Instance)
    : option Classification :=
  match r with
  | Returned o =>
      option_map (fun k => inl (k, type o)) (source_kind o)
  | Threw e => Some (inr (fault_of e))
  end.

(** **** Hosts used in the scenarios *)

(** Meteor's [EJSON.isBinary] on the shapes above. *)
Definition isBinary (d : JsData) : bool :=
  match d with DUint8Array _ => true | _ => false end.

(** What [FileReader.readAsDataURL] makes of a blob: its type, or
    [application/octet-stream] when it has none, and its bytes in base64. *)
Definition data_url (b : Blob) : string :=
  "data:"
  ++ (if JsString.truthy (blob_type b) then blob_type b
      else "application/octet-stream")
  ++ ";base64," ++ Base64.encode (blob_bytes b).

(** A browser with every capability, over a given network. *)
Definition browser (net : string -> XhrOutcome) : Env :=
  mkEnv true true true isBinary true true true true false false
        net (fun _ => None) data_url.

Definition offline (u : string) : XhrOutcome := XhrError (ErrorEvent "xhr").

End Client.

(* ================================================================== *)
(** ** The buffer-backed accessor, [server/data-man-buffer.js] *)

Module Server.

Local Open Scope js_scope.

(** The fields of [this]. *)
Record Instance : Type := mkInstance {
  buffer : bytes;
  _type : option string;
  dataUri : option string;
  _size : option Z
}.

Definition set_dataUri (s : string) (o : Instance) : Instance :=
  mkInstance (buffer o) (_type o) (Some s) (_size o).
Definition set_size (n : Z) (o : Instance) : Instance :=
  mkInstance (buffer o) (_type o) (dataUri o) (Some n).

(** The store: the instance, how often the length of the buffer was
    read, and what observing callbacks saw. *)
Record World : Type := mkWorld {
  self : Instance;
  length_reads : nat;
  delivered : list Delivery
}.

Definition fresh (o : Instance) : World := mkWorld o 0 [].

Definition on_self (f : Instance -> Instance) (w : World) : World :=
  mkWorld (f (self w)) (length_reads w) (delivered w).

Definition counted (w : World) : World :=
  mkWorld (self w) (S (length_reads w)) (delivered w).

Definition seen (d : Delivery) (w : World) : World :=
  mkWorld (self w) (length_reads w) (delivered w ++ [d]).

Definition update_self (f : Instance -> Instance) : M World unit :=
  modify (on_self f).

Definition observe {R} (inj : R -> Value) : Callback World R :=
  fun e r => modify (seen (e, option_map inj r)).

(** [self.buffer.length]. *)
Definition buffer_length : M World Z :=
  w <- get ;;
  modify counted ;;
  ret (byte_length (buffer (self w))).

Definition MissingContentType : Err :=
  JsError "DataMan.getDataUri couldn't get a contentType".

Definition DataManBuffer (buffer_ : bytes) (type_ : option string)
    : Instance :=
  mkInstance buffer_ type_ None None.

Definition getBuffer (callback : Callback World bytes) : M World unit :=
  w <- get ;;
  callback None (Some (buffer (self w))).

Definition getDataUri (callback : Callback World string) : M World unit :=
  w <- get ;;
  if truthy_str (dataUri (self w)) then
    callback None (dataUri (self w))
  else
    match _type (self w) with
    | Some t =>
        if JsString.truthy t then
          let uri := "data:" ++ t ++ ";base64,"
                     ++ Base64.encode (buffer (self w)) in
          update_self (set_dataUri uri) ;;
          callback None (Some uri)
        else callback (Some MissingContentType) None
    | None => callback (Some MissingContentType) None
    end.

(** A stream made by [sbs] over the value it was handed. *)
Inductive Stream : Type :=
| ReadStream (source : option bytes).

(** A host object as far as this file looks into it: its [buffer]
    property. *)
Record JsObject : Type := mkObject { prop_buffer : option bytes }.

(** The host's global scope: the object bound to the global name [self],
    if there is one. *)
Record Env : Type := mkEnv { global_self : option JsObject }.

Inductive Binding : Type :=
| BoundToFunction          (* a module-level function value such as [sbs] *)
| BoundToObject (o : JsObject).

(** Names declared by [createReadStream] itself: it has no parameters and
    no [var] statement. *)
Definition createReadStream_locals : list (string * Binding) := [].

(** Names declared at the top of the file. *)
Definition file_scope : list (string * Binding) := [("sbs", BoundToFunction)].

Definition global_scope (env : Env) : list (string * Binding) :=
  match global_self env with
  | Some o => [("self", BoundToObject o)]
  | None => []
  end.

Fixpoint lookup (x : string) (scope : list (string * Binding))
    : option Binding :=
  match scope with
  | [] => None
  | (y, b) :: rest => if String.eqb x y then Some b else lookup x rest
  end.

(** [return sbs(self.buffer)]: [self] is resolved through the scope
    chain; [this] is not consulted. *)
Definition createReadStream (env : Env) (this : Instance) : Outcome Stream :=
  match lookup "self"
          (createReadStream_locals ++ file_scope ++ global_scope env) with
  | None => Threw (ReferenceError "self")
  | Some BoundToFunction => Returned (ReadStream None)
  | Some (BoundToObject o) => Returned (ReadStream (prop_buffer o))
  end.

Definition size (callback : Callback World Z) : M World unit :=
  w <- get ;;
  match _size (self w) with
  | Some n => callback None (Some n)
  | None =>
      n <- buffer_length ;;
      update_self (set_size n) ;;
      callback None (Some n)
  end.

Definition type (this : Instance) : option string := _type this.

(* ---------------------------------------------------------------- *)
(** *** Vocabulary for the properties *)

Inductive Call : Type :=
| CallGetBuffer
| CallGetDataUri
| CallSize.

Definition perform (c : Call) : M World unit :=
  match c with
  | CallGetBuffer => getBuffer (observe VBytes)
  | CallGetDataUri => getDataUri (observe VString)
  | CallSize => size (observe VNumber)
  end.

Fixpoint perform_all (cs : list Call) (w : World) : World :=
  match cs with
  | [] => w
  | c :: cs' => perform_all cs' (snd (perform c w))
  end.

(** The data URI of a buffer with a content type. *)
Definition data_uri_of (buf : bytes) (t : string) : string :=
  "data:" ++ t ++ ";base64," ++ Base64.encode buf.

(** The cached data URI, when there is one, is the encoding of the
    buffer under the instance's type. *)
Definition cache_sound (o : Instance) : Prop :=
  dataUri o = None
  \/ exists t, _type o = Some t /\ JsString.truthy t = true
               /\ dataUri o = Some (data_uri_of (buffer o) t).

(** Node, where no global is called [self]. *)
Definition node : Env := mkEnv None.

End Server.

(* ================================================================== *)
(** ** Scenarios *)

Definition hello : bytes := map u8 [72; 101; 108; 108; 111]%N.

Definition ten : bytes := map u8 [0; 1; 2; 3; 4; 5; 6; 7; 8; 9]%N.

(** The instance a constructor call produced; [empty] if it threw. *)
Definition constructed (r : Outcome Client.Instance) : Client.Instance :=
  match r with
  | Returned o => o
  | Threw _ => Client.empty
  end.

Definition browser_env : Client.Env := Client.browser Client.offline.

(** Built from a ten-byte [Uint8Array]. *)
Definition ten_instance : Client.Instance :=
  constructed (Client.DataMan browser_env (Client.DUint8Array ten) None).

Definition ten_blob : Blob := BlobApi.create ten None.

(** The same browser with a file reader that fails on every blob. *)
Definition broken_reader_env : Client.Env :=
  Client.mkEnv true true true Client.isBinary true true true true false false
    Client.offline (fun _ => Some (ErrorEvent "reader")) Client.data_url.

(** Built from a blob holding [hello]. *)
Definition hello_blob : Blob := mkBlob hello "text/plain".

Definition hello_instance : Client.Instance :=
  constructed (Client.DataMan browser_env (Client.DBlob hello_blob) None).

(** Built from a data URI that carries a parameter after its type. *)
Definition charset_uri : string :=
  "data:text/plain;charset=utf-8;base64,SGVsbG8=".

Definition charset_instance : Client.Instance :=
  constructed (Client.DataMan browser_env (Client.DString charset_uri) None).

(** Built from a URL that cannot be fetched. *)
Definition remote_instance : Client.Instance :=
  constructed (Client.DataMan browser_env
                 (Client.DString "http://example.com/a.bin") None).

(* ================================================================== *)
(** ** Vocabulary for the further properties *)

Import Client.

(** The base64 text of [l] without its padding. *)
Fixpoint unpadded (l : bytes) : string :=
  match l with
  | [] => ""
  | [a] =>
      let n := Base64.pack a x00 x00 in
      String (Base64.sextet n 3) (String (Base64.sextet n 2) "")
  | [a; b] =>
      let n := Base64.pack a b x00 in
      String (Base64.sextet n 3)
        (String (Base64.sextet n 2) (String (Base64.sextet n 1) ""))
  | a :: b :: c :: rest =>
      let n := Base64.pack a b c in
      String (Base64.sextet n 3) (String (Base64.sextet n 2)
        (String (Base64.sextet n 1)
           (String (Base64.sextet n 0) (unpadded rest))))
  end.

(** The six-bit group [k] of a packed triple. *)
Definition group (n k : N) : N := N.land (N.shiftr n (6 * k)) 63.

Fixpoint sextets (l : bytes) : list N :=
  match l with
  | [] => []
  | [a] =>
      let n := Base64.pack a x00 x00 in [group n 3; group n 2]
  | [a; b] =>
      let n := Base64.pack a b x00 in [group n 3; group n 2; group n 1]
  | a :: b :: c :: rest =>
      let n := Base64.pack a b c in
      group n 3 :: group n 2 :: group n 1 :: group n 0 :: sextets rest
  end.

(** The facts about one digit that the round trip needs, as a test. *)
Definition digit_ok (m : N) : bool :=
  match Base64.value (Base64.digit m) with
  | Some v => N.eqb v m
  | None => false
  end
  && negb (Base64.is_space (Base64.digit m))
  && negb (Ascii.eqb (Base64.digit m) "=")
  && negb (Ascii.eqb (Base64.digit m) ",").

(** Built from a data URI whose payload is plain text, not base64. *)
Definition comma_instance : Instance :=
  constructed (DataMan browser_env (DString "data:text/plain,hello") None).

(** The blob [getBinary] goes on to read, or the error it reports
    instead, once [getBlob] has handed over [b]. *)
Definition to_read (env : Env) (t : option string) (b : Blob)
    (start end_ : Arg bytes) : Err + Blob :=
  match start, end_ with
  | ANumber s, ANumber e =>
      if s >=? blob_size b then inl (RangeOutOfBounds (blob_size b))
      else if has_slice env || has_webkitSlice env || has_mozSlice env
      then inr (BlobApi.slice b s (Z.min (blob_size b) e) t)
      else inl NoSlice
  | _, _ => inr b
  end.

(** The store after reading [p], or after failing to. *)
Definition after_read (env : Env) (p : Blob) (w : World) : World :=
  if negb (has_FileReader env) then seen (Some NoFileReader, None) w
  else match reader_error env p with
       | None => seen (None, Some (VBytes (blob_bytes p)))
                      (traced (IoReadAsArrayBuffer p) w)
       | Some evt => seen (Some evt, None) (traced (IoReadAsArrayBuffer p) w)
       end.

(** A browser without [FileReader] and without any slicing method. *)
Definition bare_env : Env :=
  mkEnv true true true isBinary false true true false false false
        offline (fun _ => None) data_url.

(** A computation leaves the cached size alone. *)
Definition leaves_size {A} (m : M World A) : Prop :=
  forall w, _size (self (snd (m w))) = _size (self w).

(** The cached size, when there is one, is the size of the cached blob. *)
Definition size_sound (o : Instance) : Prop :=
  forall n, _size o = Some n -> exists b, blob o = Some b /\ n = blob_size b.

(** The length of the buffer has been read exactly when the size is
    cached, and what is cached is that length. *)
Definition length_read_once (w : Server.World) : Prop :=
  match Server._size (Server.self w) with
  | None => Server.length_reads w = 0%nat
  | Some n => n = byte_length (Server.buffer (Server.self w))
              /\ Server.length_reads w = 1%nat
  end.

(* ================================================================== *)
(** * Properties *)

Import Client.

(** ** The monad and the event-handler boundary *)

Lemma async_returns (m : M World unit) (w : World) :
  fst (async m w) = Returned tt.
Proof.
  unfold async. destruct (m w) as [[[]|e] w']; reflexivity.
Qed.

Lemma async_of_returned (m : M World unit) (w w' : World) :
  m w = (Returned tt, w') -> async m w = (Returned tt, w').
Proof.
  intros H. unfold async. rewrite H. reflexivity.
Qed.

Lemma async_idempotent (m : M World unit) (w : World) :
  async (async m) w = async m w.
Proof.
  unfold async. destruct (m w) as [[[]|e] w']; reflexivity.
Qed.

(** ** [getBlob] *)

Lemma Materialises_delivered env w b w1 :
  Materialises env w b w1 ->
  delivered w1 = delivered w /\ uncaught w1 = uncaught w
  /\ type (self w1) = type (self w) /\ blob (self w1) = Some b.
Proof.
  intros H. destruct H; simpl; auto.
Qed.

Lemma getBlob_Materialises env w b w1 (k : Callback World Blob) :
  Materialises env w b w1 ->
  getBlob env k w = k None (Some b) w1
  \/ getBlob env k w = async (k None (Some b)) w1.
Proof.
  intros H. destruct H as [b Hb | u str Hb Hu Ht Hd HB | u r Hb Hu Hurl Ht Hx].
  - left. unfold getBlob, bind, get. rewrite Hb. reflexivity.
  - left. unfold getBlob, bind, get. rewrite Hb, Hu. simpl. rewrite Ht.
    unfold dataURItoBlob, bind, log_io, modify. rewrite Hd, HB. reflexivity.
  - right. unfold getBlob, bind, get. rewrite Hb, Hu, Hurl. simpl. rewrite Ht.
    unfold xhr_get, bind, log_io, modify. rewrite Hx. reflexivity.
Qed.

(** ** [getBinary] *)

Lemma blob_size_nonneg (b : Blob) : 0 <= blob_size b.
Proof. unfold blob_size, byte_length. lia. Qed.

(** Inside the data, [Blob.slice] cuts out the plain slice. *)
Lemma slice_in_range (b : Blob) (start stop : Z) (t : option string) :
  0 <= start <= stop -> stop <= blob_size b ->
  blob_bytes (BlobApi.slice b start stop t)
  = slice_bytes (blob_bytes b) start stop.
Proof.
  intros Hs He. unfold BlobApi.slice, slice_bytes, JsString.rel_index. simpl.
  destruct (Z.ltb_spec start 0); [lia|].
  destruct (Z.ltb_spec stop 0); [lia|].
  rewrite (Z.min_l start) by lia. rewrite (Z.min_l stop) by lia.
  rewrite Z.max_l by lia. reflexivity.
Qed.

Lemma slice_bytes_length (l : bytes) (a z : Z) :
  0 <= a <= z -> z <= byte_length l ->
  byte_length (slice_bytes l a z) = z - a.
Proof.
  unfold byte_length, slice_bytes. intros Ha Hz.
  rewrite length_firstn, length_skipn. lia.
Qed.

Section GetBinary.

Variable env : Env.
Variables (w w1 : World) (b : Blob).
Hypothesis data_ready : Materialises env w b w1.

(** Past [getBlob], a continuation that returns runs the same way at the
    top level and inside an event handler. *)
Lemma getBlob_then (k : Callback World Blob) (w' : World) :
  k None (Some b) w1 = (Returned tt, w') ->
  getBlob env k w = (Returned tt, w').
Proof.
  intros Hk.
  destruct (getBlob_Materialises k data_ready) as [-> | ->]; auto.
  apply async_of_returned; assumption.
Qed.

Lemma getBinary_bytes_in_range (start end_ : Z) :
  has_FileReader env = true ->
  has_slice env || has_webkitSlice env || has_mozSlice env = true ->
  (forall piece, reader_error env piece = None) ->
  0 <= start < blob_size b ->
  start <= end_ ->
  let stop := Z.min (blob_size b) end_ in
  let piece := BlobApi.slice b start stop (type (self w1)) in
  getBinary env (ANumber start) (ANumber end_)
            (AFunction (observe VBytes)) w
  = (Returned tt,
     seen (None, Some (VBytes (slice_bytes (blob_bytes b) start stop)))
          (traced (IoReadAsArrayBuffer piece) w1)).
Proof.
  intros HFR Hsl Hread Hstart Hend stop piece.
  unfold getBinary. simpl. apply getBlob_then.
  unfold bind, the_blob, ret. simpl.
  destruct (Z.geb_spec start (blob_size b)) as [Hge|_]; [lia|].
  rewrite Hsl. unfold get. rewrite HFR. simpl.
  unfold readAsArrayBuffer, bind, log_io, modify. rewrite Hread.
  unfold async, call, observe, modify. simpl.
  pose proof (@slice_in_range b start stop (type (self w1))) as E.
  unfold BlobApi.slice in E. simpl in E. unfold stop in *.
  rewrite E by lia. reflexivity.
Qed.

End GetBinary.

(** C1, amended. With [0 <= start < totalSize] and [start <= end_], and a
    host that can slice and read, [getBinary] hands the callback exactly
    [min end_ totalSize - start] bytes: the slice of the data from [start]
    up to, excluding, [min end_ totalSize]. *)
Theorem getBinary_range env w w1 b start end_ :
  Materialises env w b w1 ->
  has_FileReader env = true ->
  has_slice env || has_webkitSlice env || has_mozSlice env = true ->
  (forall piece, reader_error env piece = None) ->
  0 <= start < blob_size b ->
  start <= end_ ->
  range_delivered env w b start end_.
Proof.
  intros Hm HFR Hsl Hread Hstart Hend.
  pose proof (blob_size_nonneg b) as Hsize.
  eexists. eexists. split; [|split; [|split]].
  - apply (getBinary_bytes_in_range Hm); assumption.
  - simpl. destruct (Materialises_delivered Hm) as [-> _]. reflexivity.
  - rewrite Z.min_comm. apply slice_bytes_length; unfold blob_size in *; lia.
  - rewrite Z.min_comm. reflexivity.
Qed.

Lemma getBinary_range_witness :
  Materialises browser_env (fresh ten_instance) ten_blob (fresh ten_instance)
  /\ 0 <= 3 < blob_size ten_blob
  /\ 3 <= 8
  /\ range_delivered browser_env (fresh ten_instance) ten_blob 3 8.
Proof.
  assert (Hm : Materialises browser_env (fresh ten_instance) ten_blob
                 (fresh ten_instance)) by (apply from_blob; reflexivity).
  assert (Hs : 0 <= 3 < blob_size ten_blob) by (vm_compute; split; congruence).
  assert (He : 3 <= 8) by lia.
  split; [exact Hm|]. split; [exact Hs|]. split; [exact He|].
  apply (@getBinary_range browser_env (fresh ten_instance) (fresh ten_instance)
           ten_blob 3 8 Hm); try reflexivity; assumption.
Defined.

(** C1 as stated fails when [end_ < start]: asked for [3, 1) of ten bytes,
    the callback receives an empty array, not [min 1 10 - 3] bytes; asked
    for [0, -1), it receives the first nine bytes, because [Blob.slice]
    counts a negative end from the end of the data. *)
Lemma getBinary_range_reversed :
  Materialises browser_env (fresh ten_instance) ten_blob (fresh ten_instance)
  /\ 0 <= 3 < blob_size ten_blob
  /\ delivered (snd (getBinary browser_env (ANumber 3) (ANumber 1)
                       (AFunction (observe VBytes)) (fresh ten_instance)))
     = [(None, Some (VBytes []))]
  /\ ~ range_delivered browser_env (fresh ten_instance) ten_blob 3 1
  /\ delivered (snd (getBinary browser_env (ANumber 0) (ANumber (-1))
                       (AFunction (observe VBytes)) (fresh ten_instance)))
     = [(None, Some (VBytes (map u8 [0; 1; 2; 3; 4; 5; 6; 7; 8]%N)))]
  /\ ~ range_delivered browser_env (fresh ten_instance) ten_blob 0 (-1).
Proof.
  split; [apply from_blob; reflexivity|].
  split; [vm_compute; split; congruence|].
  split; [vm_compute; reflexivity|].
  split.
  { intros (w' & data & _ & _ & Hlen & _).
    assert (Hneg : Z.min 1 (blob_size ten_blob) - 3 = -2)
      by (vm_compute; reflexivity).
    rewrite Hneg in Hlen. unfold byte_length in Hlen. lia. }
  split; [vm_compute; reflexivity|].
  intros (w' & data & _ & _ & Hlen & _).
  assert (Hneg : Z.min (-1) (blob_size ten_blob) - 0 = -1)
    by (vm_compute; reflexivity).
  rewrite Hneg in Hlen. unfold byte_length in Hlen. lia.
Qed.

(** C2. With [start >= totalSize], [getBinary] hands the callback the
    out-of-bounds error and nothing else: no slice is taken, no read is
    started, no bytes are delivered. *)
Theorem getBinary_out_of_bounds env w w1 b start end_ :
  Materialises env w b w1 ->
  blob_size b <= start ->
  getBinary env (ANumber start) (ANumber end_)
            (AFunction (observe VBytes)) w
  = (Returned tt, seen (Some (RangeOutOfBounds (blob_size b)), None) w1).
Proof.
  intros Hm Hstart. unfold getBinary. simpl.
  apply (getBlob_then Hm).
  unfold bind, the_blob, ret. simpl.
  destruct (Z.geb_spec start (blob_size b)) as [_|Hlt]; [|lia].
  reflexivity.
Qed.

Lemma getBinary_out_of_bounds_witness :
  Materialises browser_env (fresh ten_instance) ten_blob (fresh ten_instance)
  /\ blob_size ten_blob <= 12
  /\ getBinary browser_env (ANumber 12) (ANumber 20)
       (AFunction (observe VBytes)) (fresh ten_instance)
     = (Returned tt,
        seen (Some (RangeOutOfBounds (blob_size ten_blob)), None)
             (fresh ten_instance)).
Proof.
  assert (Hm : Materialises browser_env (fresh ten_instance) ten_blob
                 (fresh ten_instance)) by (apply from_blob; reflexivity).
  assert (Hs : blob_size ten_blob <= 12) by (vm_compute; congruence).
  split; [exact Hm|]. split; [exact Hs|].
  exact (@getBinary_out_of_bounds browser_env (fresh ten_instance)
           (fresh ten_instance) ten_blob 12 20 Hm Hs).
Defined.

(** C10. With a numeric [start] and an [end_] that is not a number, the
    range branch is not taken: the whole blob is read and handed to the
    callback, whatever [start] is, with no clamping and no out-of-bounds
    error. *)
Theorem getBinary_without_numeric_end env w w1 b start end_ :
  Materialises env w b w1 ->
  has_FileReader env = true ->
  reader_error env b = None ->
  is_number end_ = false ->
  getBinary env (ANumber start) end_ (AFunction (observe VBytes)) w
  = (Returned tt,
     seen (None, Some (VBytes (blob_bytes b)))
          (traced (IoReadAsArrayBuffer b) w1)).
Proof.
  intros Hm HFR Hread Hend. unfold getBinary. simpl.
  apply (getBlob_then Hm).
  unfold bind, the_blob, ret. simpl.
  destruct end_; try discriminate Hend;
    rewrite HFR; simpl;
    unfold readAsArrayBuffer, bind, log_io, modify; rewrite Hread;
    reflexivity.
Qed.

Lemma getBinary_without_numeric_end_witness :
  Materialises browser_env (fresh ten_instance) ten_blob (fresh ten_instance)
  /\ is_number (@AUndefined bytes) = false
  /\ getBinary browser_env (ANumber 12) AUndefined
       (AFunction (observe VBytes)) (fresh ten_instance)
     = (Returned tt,
        seen (None, Some (VBytes ten))
             (traced (IoReadAsArrayBuffer ten_blob) (fresh ten_instance))).
Proof.
  assert (Hm : Materialises browser_env (fresh ten_instance) ten_blob
                 (fresh ten_instance)) by (apply from_blob; reflexivity).
  split; [exact Hm|]. split; [reflexivity|].
  exact (@getBinary_without_numeric_end browser_env (fresh ten_instance)
           (fresh ten_instance) ten_blob 12 AUndefined Hm
           eq_refl eq_refl eq_refl).
Defined.

(** ** Memoisation: [size], [getBlob], [getDataUri] *)

(** Once the size is cached, the browser [size] returns it to its caller
    and leaves the callback alone. *)
Lemma size_cached env (callback : Arg Z) (w : World) (n : Z) :
  truthy callback = true ->
  _size (self w) = Some n ->
  size env callback w = (Returned (Some n), w).
Proof.
  intros Hc Hn. unfold size. rewrite Hc. simpl.
  unfold bind, get. rewrite Hn. reflexivity.
Qed.

(** The first call computes, caches and delivers the size. *)
Lemma size_first env w w1 b :
  Materialises env w b w1 ->
  _size (self w) = None ->
  size env (AFunction (observe VNumber)) w
  = (Returned None,
     seen (None, Some (VNumber (blob_size b)))
          (on_self (set_size (blob_size b)) w1)).
Proof.
  intros Hm Hn. unfold size. simpl. unfold bind at 1. unfold get.
  rewrite Hn. unfold bind at 1.
  rewrite (@getBlob_then env w w1 b Hm _
             (seen (None, Some (VNumber (blob_size b)))
                   (on_self (set_size (blob_size b)) w1)));
    reflexivity.
Qed.

(** The buffer variant calls back on every call and reads the length of
    the buffer once. *)
Lemma server_size_twice (buf : bytes) (t : option string) :
  let w1 := snd (Server.size (Server.observe VNumber)
                   (Server.fresh (Server.DataManBuffer buf t))) in
  let w2 := snd (Server.size (Server.observe VNumber) w1) in
  Server.delivered w2
  = [(None, Some (VNumber (byte_length buf)));
     (None, Some (VNumber (byte_length buf)))]
  /\ Server.length_reads w1 = 1%nat
  /\ Server.length_reads w2 = 1%nat.
Proof. repeat split. Qed.

(** C3, at a failing input. A browser instance over the five bytes of
    [hello]: the first [size] hands 5 to the callback; the second returns 5
    to its caller, performs no host call, and never invokes the callback. *)
Theorem client_size_second_call_skips_callback :
  let cb := AFunction (observe VNumber) in
  let first := size browser_env cb (fresh hello_instance) in
  let second := size browser_env cb (snd first) in
  fst first = Returned None
  /\ delivered (snd first) = [(None, Some (VNumber 5))]
  /\ fst second = Returned (Some 5)
  /\ delivered (snd second) = [(None, Some (VNumber 5))]
  /\ io (snd second) = io (snd first).
Proof. vm_compute. repeat split. Qed.

(** A blob that has been handed over once is handed over again from the
    cache, with no host call. *)
Lemma getBlob_memoised env w w1 b (k : Callback World Blob) :
  Materialises env w b w1 ->
  getBlob env k w1 = k None (Some b) w1.
Proof.
  intros Hm. destruct (Materialises_delivered Hm) as (_ & _ & _ & Hb).
  unfold getBlob, bind, get. rewrite Hb. reflexivity.
Qed.

(** The browser [getDataUri] starts a file-reader conversion on every
    call, whatever [self.dataUri] holds. *)
Lemma getDataUri_always_reads env w w1 b :
  Materialises env w b w1 ->
  has_FileReader env = true ->
  reader_error env b = None ->
  getDataUri env (AFunction (observe VString)) w
  = (Returned tt,
     seen (None, Some (VString (reader_dataURL env b)))
          (on_self (set_dataUri (reader_dataURL env b))
                   (traced (IoReadAsDataURL b) w1))).
Proof.
  intros Hm HFR Hread. unfold getDataUri. simpl. rewrite HFR. simpl.
  apply (getBlob_then Hm).
  unfold bind, the_blob, ret, readAsDataURL, log_io, modify.
  rewrite Hread. reflexivity.
Qed.

(** C4, at a failing input. A browser instance over a blob: the second
    [getDataUri] delivers the same string as the first but runs the
    file-reader conversion a second time. *)
Theorem client_getDataUri_converts_again :
  let cb := AFunction (observe VString) in
  let w1 := snd (getDataUri browser_env cb (fresh hello_instance)) in
  let w2 := snd (getDataUri browser_env cb w1) in
  dataUri (self w1) = Some "data:text/plain;base64,SGVsbG8="
  /\ io w1 = [IoReadAsDataURL hello_blob]
  /\ io w2 = [IoReadAsDataURL hello_blob; IoReadAsDataURL hello_blob]
  /\ delivered w2
     = [(None, Some (VString "data:text/plain;base64,SGVsbG8="));
        (None, Some (VString "data:text/plain;base64,SGVsbG8="))].
Proof. vm_compute. repeat split. Qed.

(** ** Strings: prefixes and the type of a data URI *)

Lemma substring_past_end (s : string) (n : nat) :
  String.substring 0 (Nat.min n (String.length s)) s = String.substring 0 n s.
Proof.
  revert n. induction s as [|c s IH]; intros [|n]; simpl; auto.
  now rewrite IH.
Qed.

(** [s.slice(0, p.length) === p] is the prefix test. *)
Lemma slice_is_prefix (p s : string) :
  String.eqb (JsString.slice s 0 (JsString.len p)) p = String.prefix p s.
Proof.
  unfold JsString.slice, JsString.rel_index, JsString.len.
  change (0 <? 0) with false. cbv iota.
  destruct (Z.ltb_spec (Z.of_nat (String.length p)) 0) as [Hneg|_]; [lia|].
  replace (Z.min 0 (Z.of_nat (String.length s))) with 0 by lia.
  replace (Z.max (Z.min (Z.of_nat (String.length p))
                        (Z.of_nat (String.length s)) - 0) 0)
    with (Z.of_nat (Nat.min (String.length p) (String.length s))) by lia.
  rewrite Nat2Z.id. change (Z.to_nat 0) with 0%nat.
  rewrite substring_past_end.
  destruct (String.prefix p s) eqn:Hp.
  - apply String.eqb_eq. now apply String.prefix_correct.
  - apply String.eqb_neq. intros H.
    apply String.prefix_correct in H. congruence.
Qed.

Lemma prefix_split (p s : string) :
  String.prefix p s = true -> s = p ++ drop (String.length p) s.
Proof.
  revert s. induction p as [|a p IH]; intros s H.
  - reflexivity.
  - destruct s as [|b s]; [discriminate H|].
    cbn [String.prefix] in H.
    destruct (ascii_dec a b) as [Heq|]; [|discriminate H]. subst b.
    cbn [String.length drop append]. f_equal. now apply IH.
Qed.

Lemma substring_drop (n m : nat) (s : string) :
  String.substring n m s = String.substring 0 m (drop n s).
Proof.
  revert s. induction n as [|n IH]; intros s.
  - reflexivity.
  - destruct s as [|c s]; simpl.
    + destruct m; reflexivity.
    + apply IH.
Qed.

Lemma substring_before (c : ascii) (s : string) :
  String.substring 0 (String.length (before c s)) s = before c s.
Proof.
  induction s as [|a s IH]; simpl; [reflexivity|].
  destruct (Ascii.eqb a c); simpl; [reflexivity|]. now rewrite IH.
Qed.

Lemma before_length (c : ascii) (s : string) :
  (String.length (before c s) <= String.length s)%nat.
Proof.
  induction s as [|a s IH]; simpl; [lia|].
  destruct (Ascii.eqb a c); simpl; lia.
Qed.

Lemma indexOf_from_found (c : ascii) (s : string) (i : Z) :
  contains c s = true ->
  JsString.indexOf_from c s i = i + JsString.len (before c s).
Proof.
  revert i. induction s as [|a s IH]; intros i H; simpl in *.
  - discriminate.
  - destruct (Ascii.eqb a c); simpl in *.
    + unfold JsString.len. simpl. lia.
    + rewrite IH by assumption. unfold JsString.len. simpl String.length. lia.
Qed.

(** The type the constructor extracts from a [data:] string that has a
    [;]: the text after the prefix, up to that [;]. *)
Lemma type_of_data_uri (s : string) :
  String.prefix "data:" s = true ->
  contains ";" s = true ->
  JsString.slice s 5 (JsString.indexOf ";" s) = before ";" (drop 5 s).
Proof.
  intros Hp Hc. apply prefix_split in Hp. simpl String.length in Hp.
  set (rest := drop 5 s) in *. rewrite Hp in Hc |- *. clearbody rest. clear Hp.
  simpl in Hc.
  unfold JsString.indexOf. simpl JsString.indexOf_from.
  rewrite indexOf_from_found by assumption.
  pose proof (before_length ";" rest) as Hle.
  unfold JsString.slice, JsString.rel_index, JsString.len in *.
  simpl String.length.
  repeat match goal with
         | |- context [?a <? 0] => destruct (Z.ltb_spec a 0); [lia|]
         end.
  rewrite !Z.min_l by lia. rewrite Z.max_l by lia.
  replace (5 + Z.of_nat (String.length (before ";" rest)) - 5)
    with (Z.of_nat (String.length (before ";" rest))) by lia.
  rewrite Nat2Z.id. change (Z.to_nat 5) with 5%nat.
  rewrite substring_drop. simpl drop. apply substring_before.
Qed.

(** ** The constructor *)

Lemma starts_with_data (s : string) :
  String.eqb (JsString.slice s 0 5) "data:" = String.prefix "data:" s.
Proof. exact (slice_is_prefix "data:" s). Qed.

Lemma starts_with_http (s : string) :
  String.eqb (JsString.slice s 0 5) "http:" = String.prefix "http:" s.
Proof. exact (slice_is_prefix "http:" s). Qed.

Lemma starts_with_https (s : string) :
  String.eqb (JsString.slice s 0 6) "https:" = String.prefix "https:" s.
Proof. exact (slice_is_prefix "https:" s). Qed.

Lemma DataMan_string env (s : string) (hint : option string) :
  is_binary_data env (DString s) = false ->
  option_map kind_of (classification_of (DataMan env (DString s) hint))
  = Some (kind_of (classify env (DString s) hint))
  /\ (names_its_type (DString s) = true ->
      classification_of (DataMan env (DString s) hint)
      = Some (classify env (DString s) hint)).
Proof.
  unfold is_binary_data, names_its_type, DataMan, classify,
    is_file_handle, is_blob_handle, is_binary_data.
  simpl. rewrite !Bool.andb_false_r. simpl. intros ->.
  destruct (has_File env), (has_Blob env); simpl;
    rewrite starts_with_data, starts_with_http, starts_with_https;
    (destruct (String.prefix "data:" s) eqn:Hd;
     [ split; [reflexivity|];
       intros Hn; rewrite (type_of_data_uri s Hd Hn); reflexivity
     | destruct (String.prefix "http:" s), (String.prefix "https:" s);
       split; reflexivity ]).
Qed.

Lemma DataMan_other env (data : JsData) (hint : option string) :
  (forall s, data <> DString s) \/ is_binary_data env data = true ->
  classification_of (DataMan env data hint) = Some (classify env data hint).
Proof.
  intros Hcase.
  destruct (is_binary_data env data) eqn:Hbin;
    pose proof Hbin as Hbin'; unfold is_binary_data in Hbin';
    unfold DataMan, classify, is_file_handle, is_blob_handle,
      instanceof_ArrayBuffer;
    rewrite Hbin, Hbin'.
  - destruct data; destruct (has_File env), (has_Blob env); reflexivity.
  - destruct Hcase as [Hns|Hb]; [|discriminate Hb].
    destruct data; try (exfalso; eapply Hns; reflexivity);
      destruct (has_File env), (has_Blob env); reflexivity.
Qed.

(** C6. The constructor classifies its input by the rules of section 4.1
    in their order: file and blob handles first, then byte arrays and
    binary data, then [data:] strings, then [http:] and [https:] strings;
    any other string faults with UnrecognizedInput and any other shape with
    UnsupportedInput, as the outcome of the constructor call itself. The
    type of a [data:] string is the text between the prefix and the
    following [;]. *)
Theorem DataMan_classification env (data : JsData) (hint : option string) :
  option_map kind_of (classification_of (DataMan env data hint))
  = Some (kind_of (classify env data hint))
  /\ (names_its_type data = true ->
      classification_of (DataMan env data hint)
      = Some (classify env data hint)).
Proof.
  destruct (is_binary_data env data) eqn:Hbin.
  - rewrite (@DataMan_other env data hint) by (right; exact Hbin).
    split; reflexivity.
  - assert (Hstr : (exists s, data = DString s) \/ forall s, data <> DString s).
    { destruct data; try (right; intros s; discriminate).
      left; eexists; reflexivity. }
    destruct Hstr as [[s ->]|Hns].
    + now apply DataMan_string.
    + rewrite (@DataMan_other env data hint) by (left; exact Hns).
      split; reflexivity.
Qed.

Lemma DataMan_classification_witness :
  names_its_type (DString "data:text/plain;base64,SGVsbG8=") = true
  /\ classification_of
       (DataMan browser_env (DString "data:text/plain;base64,SGVsbG8=") None)
     = Some (inl (DataURI, Some "text/plain")).
Proof.
  split; [reflexivity|].
  exact (proj2 (@DataMan_classification browser_env
                  (DString "data:text/plain;base64,SGVsbG8=") None) eq_refl).
Defined.

(** ** What accessor calls leave alone *)

Lemma kept_refl (o : Instance) : kept o o.
Proof. unfold kept. auto. Qed.

Lemma kept_trans (o1 o2 o3 : Instance) :
  kept o1 o2 -> kept o2 o3 -> kept o1 o3.
Proof.
  unfold kept. intros (Hb & Hu & Ht & Hd) (Hb' & Hu' & Ht' & Hd').
  repeat split; auto; congruence.
Qed.

Lemma kept_set_blob (o : Instance) (b : Blob) :
  blob o = None -> kept o (set_blob b o).
Proof.
  unfold kept. intros Hb. repeat split; auto. intros b' H. congruence.
Qed.

Lemma kept_set_dataUri (o : Instance) (s : string) : kept o (set_dataUri s o).
Proof. unfold kept. simpl. repeat split; auto. discriminate. Qed.

Lemma kept_set_size (o : Instance) (n : Z) : kept o (set_size n o).
Proof. unfold kept. simpl. auto. Qed.

Lemma async_self (m : M World unit) (w : World) :
  self (snd (async m w)) = self (snd (m w)).
Proof. unfold async. destruct (m w) as [[[]|e] w']; reflexivity. Qed.

Lemma keeps_async (m : M World unit) : keeps m -> keeps (async m).
Proof. intros H w. rewrite async_self. apply H. Qed.

Lemma keeps_observe {R} (inj : R -> Value) e r : keeps (observe inj e r).
Proof. intros w. apply kept_refl. Qed.

Lemma keeps_throw {A} (e : Err) : keeps (@throw World A e).
Proof. intros w. apply kept_refl. Qed.

Lemma keeps_bind {A B} (m : M World A) (k : A -> M World B) :
  keeps m -> (forall a, keeps (k a)) -> keeps (bind m k).
Proof.
  intros Hm Hk w. specialize (Hm w). unfold bind.
  destruct (m w) as [[a|e] w']; simpl in *; [|exact Hm].
  eapply kept_trans; [exact Hm|apply Hk].
Qed.

Lemma keeps_log_io (e : IoEvent) : keeps (log_io e).
Proof. intros w. apply kept_refl. Qed.

Lemma keeps_getBlob env (k : Callback World Blob) :
  (forall e r, keeps (k e r)) -> keeps (getBlob env k).
Proof.
  intros Hk w. unfold getBlob, bind, get.
  destruct (blob (self w)) as [b|] eqn:Hb; [apply Hk|].
  destruct (truthy_str (dataUri (self w))).
  - unfold dataURItoBlob, bind, log_io, modify.
    destruct (Base64.decode _); [|apply kept_refl].
    destruct (has_Blob env); [|apply kept_refl].
    eapply kept_trans; [|apply Hk]. simpl. now apply kept_set_blob.
  - destruct (truthy_str (url (self w))); [|apply kept_refl].
    unfold xhr_get, bind, log_io, modify.
    destruct (xhr_response env _) as [r|evt].
    + rewrite async_self. unfold bind, update_self, modify.
      eapply kept_trans; [|apply Hk]. simpl. now apply kept_set_blob.
    + rewrite async_self. exact (Hk (Some evt) None (traced _ w)).
Qed.

Lemma keeps_call {R} (inj : R -> Value) e r :
  keeps (call (AFunction (observe inj)) e r).
Proof. apply keeps_observe. Qed.

Lemma keeps_the_blob (b : option Blob) : keeps (the_blob b).
Proof. intros w. destruct b; apply kept_refl. Qed.

Lemma keeps_update_dataUri (s : string) : keeps (update_self (set_dataUri s)).
Proof. intros w. apply kept_set_dataUri. Qed.

Lemma keeps_update_size (n : Z) : keeps (update_self (set_size n)).
Proof. intros w. apply kept_set_size. Qed.

Lemma keeps_readAsArrayBuffer env b onload onerror :
  (forall r, keeps (onload r)) -> (forall e, keeps (onerror e)) ->
  keeps (readAsArrayBuffer env b onload onerror).
Proof.
  intros Hl He. unfold readAsArrayBuffer.
  apply keeps_bind; [apply keeps_log_io|]. intros _.
  destruct (reader_error env b); apply keeps_async; auto.
Qed.

Lemma keeps_readAsDataURL env b onload onerror :
  (forall r, keeps (onload r)) -> (forall e, keeps (onerror e)) ->
  keeps (readAsDataURL env b onload onerror).
Proof.
  intros Hl He. unfold readAsDataURL.
  apply keeps_bind; [apply keeps_log_io|]. intros _.
  destruct (reader_error env b); apply keeps_async; auto.
Qed.

Lemma keeps_get_then {A} (k : World -> M World A) :
  (forall w, keeps (k w)) -> keeps (bind get k).
Proof. intros H w. unfold bind, get. apply H. Qed.

Lemma keeps_perform env (c : Call) : keeps (perform env c).
Proof.
  destruct c as [|s e|f| |]; unfold perform.
  - apply keeps_getBlob. intros; apply keeps_observe.
  - unfold getBinary.
    replace (is_function (@number_arg bytes s)) with false
      by (destruct s; reflexivity).
    simpl. apply keeps_getBlob. intros [err|] r; [apply keeps_observe|].
    apply keeps_bind; [apply keeps_the_blob|]. intros b.
    assert (Hread : forall piece,
               keeps (if negb (has_FileReader env)
                      then call (AFunction (observe VBytes))
                                (Some NoFileReader) None
                      else readAsArrayBuffer env piece
                             (fun result => call (AFunction (observe VBytes))
                                                 None (Some result))
                             (fun err => call (AFunction (observe VBytes))
                                              (Some err) None))).
    { intros piece. destruct (negb (has_FileReader env));
        [apply keeps_observe|].
      apply keeps_readAsArrayBuffer; intros; apply keeps_observe. }
    destruct s as [n|]; simpl; [|apply Hread].
    destruct e as [m|]; simpl; [|apply Hread].
    destruct (n >=? blob_size b); [apply keeps_observe|].
    destruct (has_slice env || has_webkitSlice env || has_mozSlice env);
      [|apply keeps_observe].
    apply keeps_get_then. intros w. apply Hread.
  - unfold saveAs. destruct (negb (has_window env)); [apply keeps_throw|].
    apply keeps_getBlob. intros [err|] r; [apply keeps_throw|].
    apply keeps_bind; [apply keeps_the_blob|]. intros b.
    unfold window_saveAs. destruct (has_window_saveAs env);
      [apply keeps_log_io|apply keeps_throw].
  - unfold getDataUri. simpl.
    destruct (negb (has_FileReader env)); [apply keeps_observe|].
    apply keeps_getBlob. intros [err|] r; [apply keeps_observe|].
    apply keeps_bind; [apply keeps_the_blob|]. intros b.
    apply keeps_readAsDataURL; intros; [|apply keeps_observe].
    apply keeps_bind; [apply keeps_update_dataUri|].
    intros _. apply keeps_observe.
  - apply keeps_bind; [|intros; intros w; apply kept_refl].
    unfold size. simpl. apply keeps_get_then. intros w.
    destruct (_size (self w)); [intros w0; apply kept_refl|].
    apply keeps_bind; [|intros; intros w0; apply kept_refl].
    apply keeps_getBlob. intros [err|] r; [apply keeps_observe|].
    apply keeps_bind; [apply keeps_the_blob|]. intros b.
    apply keeps_bind; [apply keeps_update_size|].
    intros _. apply keeps_observe.
Qed.

Lemma keeps_perform_all env (cs : list Call) (w : World) :
  kept (self w) (self (perform_all env cs w)).
Proof.
  revert w. induction cs as [|c cs IH]; intros w; simpl.
  - apply kept_refl.
  - eapply kept_trans; [apply keeps_perform|apply IH].
Qed.

(** ** The buffer variant *)

Lemma server_perform_invariant (c : Server.Call) (w : Server.World) :
  Server.cache_sound (Server.self w) ->
  Server.cache_sound (Server.self (snd (Server.perform c w)))
  /\ Server.buffer (Server.self (snd (Server.perform c w)))
     = Server.buffer (Server.self w)
  /\ Server._type (Server.self (snd (Server.perform c w)))
     = Server._type (Server.self w).
Proof.
  intros Hc. destruct c; unfold Server.perform.
  - unfold Server.getBuffer, bind, get. simpl. auto.
  - unfold Server.getDataUri, bind, get.
    destruct (truthy_str (Server.dataUri (Server.self w))); [simpl; auto|].
    destruct (Server._type (Server.self w)) as [t|] eqn:Ht; [|simpl; auto].
    destruct (JsString.truthy t) eqn:Htt; [|simpl; auto].
    simpl. split; [|auto]. right. exists t. auto.
  - unfold Server.size, bind, get.
    destruct (Server._size (Server.self w)); simpl; auto.
Qed.

Lemma server_perform_all_invariant (cs : list Server.Call) (w : Server.World) :
  Server.cache_sound (Server.self w) ->
  Server.cache_sound (Server.self (Server.perform_all cs w))
  /\ Server.buffer (Server.self (Server.perform_all cs w))
     = Server.buffer (Server.self w)
  /\ Server._type (Server.self (Server.perform_all cs w))
     = Server._type (Server.self w).
Proof.
  revert w. induction cs as [|c cs IH]; intros w Hc; simpl; [auto|].
  destruct (server_perform_invariant c w Hc) as (Hc' & Hb & Ht).
  destruct (IH _ Hc') as (Hc'' & Hb' & Ht').
  repeat split; [assumption|congruence|congruence].
Qed.

(** C7. Built from the bytes of [hello] with type [text/plain], the buffer
    variant's [getDataUri] hands its callback
    ["data:text/plain;base64,SGVsbG8="]. In general, after any accessor
    calls, it hands over ["data:" ++ type ++ ";base64," ++ base64 buffer]
    when the type is known, and the MissingContentType error, within the
    call, when it is not. *)
Theorem Buffer_getDataUri :
  Server.getDataUri (Server.observe VString)
    (Server.fresh (Server.DataManBuffer hello (Some "text/plain")))
  = (Returned tt,
     Server.mkWorld
       (Server.mkInstance hello (Some "text/plain")
          (Some "data:text/plain;base64,SGVsbG8=") None)
       0 [(None, Some (VString "data:text/plain;base64,SGVsbG8="))])
  /\ forall (buf : bytes) (t : option string) (calls : list Server.Call),
       let w := Server.perform_all calls
                  (Server.fresh (Server.DataManBuffer buf t)) in
       let r := Server.getDataUri (Server.observe VString) w in
       fst r = Returned tt
       /\ Server.delivered (snd r)
          = (Server.delivered w
             ++ [match t with
                 | Some ty =>
                     if JsString.truthy ty
                     then (None, Some (VString ("data:" ++ ty ++ ";base64,"
                                                ++ Base64.encode buf)))
                     else (Some Server.MissingContentType, None)
                 | None => (Some Server.MissingContentType, None)
                 end])%list.
Proof.
  split; [reflexivity|].
  intros buf t calls w r.
  destruct (server_perform_all_invariant calls
              (Server.fresh (Server.DataManBuffer buf t)))
    as (Hc & Hb & Ht); [left; reflexivity|].
  fold w in Hc, Hb, Ht. simpl in Hb, Ht.
  subst r. unfold Server.getDataUri, bind, get.
  destruct Hc as [Hnone | (ty & Hty & Htruthy & Hsome)].
  - rewrite Hnone. simpl. rewrite Ht, Hb.
    destruct t as [ty|]; [|split; reflexivity].
    destruct (JsString.truthy ty); split; reflexivity.
  - rewrite Hsome. simpl. rewrite Ht in Hty. subst t.
    rewrite Htruthy, Hb. split; reflexivity.
Qed.

Lemma server_perform_fields (c : Server.Call) (w : Server.World) :
  Server.buffer (Server.self (snd (Server.perform c w)))
  = Server.buffer (Server.self w)
  /\ Server._type (Server.self (snd (Server.perform c w)))
     = Server._type (Server.self w).
Proof.
  destruct c; unfold Server.perform.
  - unfold Server.getBuffer, bind, get. simpl. auto.
  - unfold Server.getDataUri, bind, get.
    destruct (truthy_str (Server.dataUri (Server.self w))); [simpl; auto|].
    destruct (Server._type (Server.self w)) as [t|] eqn:Ht; [|simpl; auto].
    destruct (JsString.truthy t); simpl; auto.
  - unfold Server.size, bind, get.
    destruct (Server._size (Server.self w)); simpl; auto.
Qed.

Lemma server_perform_all_fields (cs : list Server.Call) (w : Server.World) :
  Server.buffer (Server.self (Server.perform_all cs w))
  = Server.buffer (Server.self w)
  /\ Server._type (Server.self (Server.perform_all cs w))
     = Server._type (Server.self w).
Proof.
  revert w. induction cs as [|c cs IH]; intros w; simpl; [auto|].
  destruct (server_perform_fields c w) as (Hb & Ht).
  destruct (IH (snd (Server.perform c w))) as (Hb' & Ht').
  split; congruence.
Qed.

(** ** Source identity *)

(** X18. What does hold over any sequence of accessor calls, issued one
    after the other: a blob that is set stays the same blob, the URL and
    the type never change, and a data URI that is set is never cleared; on
    the server the buffer and its type never change. *)
Lemma accessors_keep_source env (cs : list Call) (w : World)
    (scs : list Server.Call) (sw : Server.World) :
  kept (self w) (self (perform_all env cs w))
  /\ Server.buffer (Server.self (Server.perform_all scs sw))
     = Server.buffer (Server.self sw)
  /\ Server._type (Server.self (Server.perform_all scs sw))
     = Server._type (Server.self sw).
Proof.
  split; [apply keeps_perform_all|apply server_perform_all_fields].
Qed.

(** C8, at a failing input. An instance built from a data URI that carries
    a [charset] parameter: one successful [getDataUri] replaces
    [self.dataUri], the field the instance was built from, with the file
    reader's result, a different string; the type is unchanged. *)
Theorem getDataUri_replaces_data_uri :
  let w := perform_all browser_env [CallGetDataUri] (fresh charset_instance) in
  dataUri charset_instance
  = Some "data:text/plain;charset=utf-8;base64,SGVsbG8="
  /\ dataUri (self w) = Some "data:text/plain;base64,SGVsbG8="
  /\ dataUri (self w) <> dataUri charset_instance
  /\ type (self w) = type charset_instance.
Proof.
  split; [reflexivity|]. split; [vm_compute; reflexivity|].
  split; [vm_compute; discriminate|]. vm_compute. reflexivity.
Qed.

(** ** [createReadStream] *)

(** C9. [createReadStream] never gets to the instance's buffer: [self] is
    bound neither in the function nor in the file, so on a host without a
    global of that name the call faults with a reference error, and on any
    host the result does not depend on the instance. *)
Theorem createReadStream_misses_instance (env : Server.Env)
    (this : Server.Instance) :
  Server.lookup "self"
    (Server.createReadStream_locals ++ Server.file_scope)%list = None
  /\ (Server.global_self env = None ->
      Server.createReadStream env this = Threw (ReferenceError "self"))
  /\ forall other : Server.Instance,
       Server.createReadStream env this = Server.createReadStream env other.
Proof.
  split; [reflexivity|]. split; [|reflexivity].
  intros Hg. unfold Server.createReadStream, Server.global_scope.
  rewrite Hg. reflexivity.
Qed.

Lemma createReadStream_misses_instance_witness :
  Server.global_self Server.node = None
  /\ Server.createReadStream Server.node
       (Server.DataManBuffer hello (Some "text/plain"))
     = Threw (ReferenceError "self").
Proof.
  split; [reflexivity|].
  exact (proj1 (proj2 (@createReadStream_misses_instance Server.node
                          (Server.DataManBuffer hello (Some "text/plain"))))
               eq_refl).
Defined.

(** ** Faults after a suspension *)

Lemma async_absorbs (m g : M World unit) (w w' : World) :
  m w = async g w' -> async m w = async g w'.
Proof.
  intros H. unfold async at 1. rewrite H. unfold async.
  destruct (g w') as [[[]|e] w'']; reflexivity.
Qed.

Lemma getBlob_then_async env w w1 b (k : Callback World Blob)
    (g : M World unit) (w2 : World) :
  Materialises env w b w1 ->
  k None (Some b) w1 = async g w2 ->
  getBlob env k w = async g w2.
Proof.
  intros Hm Hk.
  destruct (getBlob_Materialises k Hm) as [-> | ->]; [assumption|].
  now apply async_absorbs.
Qed.

Lemma getBlob_transport_failure env w u evt (k : Callback World Blob) :
  TransportFails env w u evt ->
  getBlob env k w = async (k (Some evt) None) (traced (IoXhrGet u) w).
Proof.
  intros (Hb & Hd & Hu & Ht & Hx).
  unfold getBlob, bind, get. rewrite Hb, Hd, Hu. simpl. rewrite Ht.
  unfold xhr_get, bind, log_io, modify. rewrite Hx. reflexivity.
Qed.

(** C5 as stated fails for [saveAs]: when the fetch fails, the error is
    thrown from inside the event handler and reaches no callback. *)
Lemma saveAs_throws_transport_failure :
  TransportFails browser_env (fresh remote_instance)
    "http://example.com/a.bin" (ErrorEvent "xhr")
  /\ saveAs browser_env (Some "a.bin") (fresh remote_instance)
     = (Returned tt,
        mkWorld remote_instance [IoXhrGet "http://example.com/a.bin"]
                [ErrorEvent "xhr"] []).
Proof.
  split; [repeat split|]. vm_compute. reflexivity.
Qed.

(** C5, amended. A transport failure of the fetch, or a failure of the
    file reader, reaches the error slot of the callback of [getBlob],
    [getBinary], [getDataUri] and [size], from inside an event handler,
    whose exceptions never reach the caller. [saveAs] takes no callback: it
    throws the error inside the event handler, where it goes uncaught.

    For [getBinary] the callback is the first argument when that is a
    function and the third otherwise, and the read that fails is the read
    of the whole blob or, for a numeric range below the size, of the
    slice. *)
Theorem late_faults_reach_the_callback env (w : World) :
  (forall u evt, TransportFails env w u evt ->
     let w1 := traced (IoXhrGet u) w in
     (forall f, getBlob env f w = async (f (Some evt) None) w1)
     /\ (forall f end_ callback,
           getBinary env (AFunction f) end_ callback w
           = async (f (Some evt) None) w1)
     /\ (forall start end_ f, is_function start = false ->
           getBinary env start end_ (AFunction f) w
           = async (f (Some evt) None) w1)
     /\ (forall f, has_FileReader env = true ->
           getDataUri env (AFunction f) w = async (f (Some evt) None) w1)
     /\ (forall f, _size (self w) = None ->
           size env (AFunction f) w
           = (Returned None, snd (async (f (Some evt) None) w1)))
     /\ (forall filename, has_window env = true ->
           saveAs env filename w = (Returned tt, escape evt w1)))
  /\ (forall b w1,
        Materialises env w b w1 ->
        has_FileReader env = true ->
        (forall evt f end_ callback,
           reader_error env b = Some evt ->
           getBinary env (AFunction f) end_ callback w
           = async (f (Some evt) None) (traced (IoReadAsArrayBuffer b) w1))
        /\ (forall evt start end_ f,
              reader_error env b = Some evt ->
              is_function start = false ->
              is_number start && is_number end_ = false ->
              getBinary env start end_ (AFunction f) w
              = async (f (Some evt) None)
                      (traced (IoReadAsArrayBuffer b) w1))
        /\ (forall evt s e f,
              s < blob_size b ->
              has_slice env || has_webkitSlice env || has_mozSlice env = true ->
              let piece := BlobApi.slice b s (Z.min (blob_size b) e)
                             (type (self w1)) in
              reader_error env piece = Some evt ->
              getBinary env (ANumber s) (ANumber e) (AFunction f) w
              = async (f (Some evt) None)
                      (traced (IoReadAsArrayBuffer piece) w1))
        /\ (forall evt f,
              reader_error env b = Some evt ->
              getDataUri env (AFunction f) w
              = async (f (Some evt) None) (traced (IoReadAsDataURL b) w1)))
  /\ (forall (m : M World unit) (w0 : World), fst (async m w0) = Returned tt).
Proof.
  split; [|split; [|apply async_returns]].
  - intros u evt Hfail w1. repeat split.
    + intros f. now apply getBlob_transport_failure.
    + intros f end_ callback. unfold getBinary. simpl.
      now rewrite (getBlob_transport_failure _ Hfail).
    + intros start end_ f Hs. unfold getBinary. rewrite Hs. simpl.
      now rewrite (getBlob_transport_failure _ Hfail).
    + intros f HFR. unfold getDataUri. simpl. rewrite HFR. simpl.
      now rewrite (getBlob_transport_failure _ Hfail).
    + intros f Hn. unfold size. simpl. unfold bind at 1. unfold get.
      rewrite Hn. unfold bind at 1.
      rewrite (getBlob_transport_failure _ Hfail). simpl.
      fold w1. pose proof (async_returns (f (Some evt) None) w1) as Hr.
      destruct (async (f (Some evt) None) w1) as [[[]|e] w']; simpl in *;
        [reflexivity|discriminate].
    + intros filename Hw. unfold saveAs. rewrite Hw. simpl.
      now rewrite (getBlob_transport_failure _ Hfail).
  - intros b w1 Hm HFR. split; [|split; [|split]].
    + intros evt f end_ callback Hread. unfold getBinary. simpl.
      eapply getBlob_then_async; [exact Hm|].
      unfold bind, the_blob, ret. simpl. rewrite HFR. simpl.
      unfold readAsArrayBuffer, bind, log_io, modify. rewrite Hread.
      reflexivity.
    + intros evt start end_ f Hread Hs Hnum. unfold getBinary.
      rewrite Hs. simpl.
      eapply getBlob_then_async; [exact Hm|].
      unfold bind, the_blob, ret. simpl.
      destruct start, end_; try discriminate Hnum;
        rewrite HFR; simpl;
        unfold readAsArrayBuffer, bind, log_io, modify; rewrite Hread;
        reflexivity.
    + intros evt s e f Hs Hsl piece Hread. unfold getBinary. simpl.
      eapply getBlob_then_async; [exact Hm|].
      unfold bind, the_blob, ret. simpl.
      destruct (Z.geb_spec s (blob_size b)) as [Hge|_]; [lia|].
      rewrite Hsl. unfold get. rewrite HFR. simpl.
      unfold readAsArrayBuffer, bind, log_io, modify.
      fold piece. rewrite Hread. reflexivity.
    + intros evt f Hread. unfold getDataUri. simpl. rewrite HFR. simpl.
      eapply getBlob_then_async; [exact Hm|].
      unfold bind, the_blob, ret, readAsDataURL, log_io, modify.
      rewrite Hread. reflexivity.
Qed.

Lemma late_faults_reach_the_callback_witness :
  TransportFails browser_env (fresh remote_instance)
    "http://example.com/a.bin" (ErrorEvent "xhr")
  /\ getBinary browser_env (AFunction (observe VBytes)) AUndefined AUndefined
       (fresh remote_instance)
     = async (observe VBytes (Some (ErrorEvent "xhr")) None)
             (traced (IoXhrGet "http://example.com/a.bin")
                     (fresh remote_instance))
  /\ Materialises broken_reader_env (fresh ten_instance) ten_blob
       (fresh ten_instance)
  /\ 3 < blob_size ten_blob
  /\ getBinary broken_reader_env (ANumber 3) (ANumber 8)
       (AFunction (observe VBytes)) (fresh ten_instance)
     = async (observe VBytes (Some (ErrorEvent "reader")) None)
             (traced (IoReadAsArrayBuffer
                        (BlobApi.slice ten_blob 3
                           (Z.min (blob_size ten_blob) 8)
                           (type (self (fresh ten_instance)))))
                     (fresh ten_instance))
  /\ getDataUri broken_reader_env (AFunction (observe VString))
       (fresh ten_instance)
     = async (observe VString (Some (ErrorEvent "reader")) None)
             (traced (IoReadAsDataURL ten_blob) (fresh ten_instance)).
Proof.
  assert (Hf : TransportFails browser_env (fresh remote_instance)
                 "http://example.com/a.bin" (ErrorEvent "xhr"))
    by (repeat split).
  assert (Hm : Materialises broken_reader_env (fresh ten_instance)
                 ten_blob (fresh ten_instance))
    by (apply from_blob; reflexivity).
  assert (Hs : 3 < blob_size ten_blob) by (vm_compute; reflexivity).
  split; [exact Hf|]. split.
  - exact (proj1 (proj2 (proj1
             (@late_faults_reach_the_callback browser_env
                (fresh remote_instance)) _ _ Hf))
             (observe VBytes) AUndefined AUndefined).
  - split; [exact Hm|]. split; [exact Hs|]. split.
    + exact (proj1 (proj2 (proj2 (proj1 (proj2
               (@late_faults_reach_the_callback broken_reader_env
                  (fresh ten_instance))) _ _ Hm eq_refl)))
               (ErrorEvent "reader") 3 8 (observe VBytes) Hs eq_refl
               eq_refl).
    + exact (proj2 (proj2 (proj2 (proj1 (proj2
               (@late_faults_reach_the_callback broken_reader_env
                  (fresh ten_instance))) _ _ Hm eq_refl)))
               (ErrorEvent "reader") (observe VString) eq_refl).
Defined.

(** ** Scenarios, evaluated *)

Example encode_hello : Base64.encode hello = "SGVsbG8=".
Proof. reflexivity. Qed.

Example decode_hello : Base64.decode "SGVsbG8=" = Some "Hello".
Proof. reflexivity. Qed.

(** [atob(undefined)] raises: nine characters are no base64 text. *)
Example decode_undefined : Base64.decode (payload "data:text/plain") = None.
Proof. reflexivity. Qed.

(** A blob that [EJSON.isBinary] would also accept is still kept as it is,
    with its own type rather than the hint. *)
Example blob_before_binary :
  DataMan (mkEnv true true true (fun _ => true) true true true true false
                 false offline (fun _ => None) data_url)
          (DBlob hello_blob) (Some "image/png")
  = Returned (mkInstance (Some hello_blob) None None (Some "text/plain") None).
Proof. reflexivity. Qed.

Example number_is_unsupported :
  DataMan browser_env (DNumber 42) None = Threw UnsupportedInput.
Proof. reflexivity. Qed.

Example plain_string_is_unrecognized :
  DataMan browser_env (DString "ftp://example.com/a") None
  = Threw UnrecognizedInput.
Proof. reflexivity. Qed.

(** Without a [;], the extracted type is cut one character short of the
    end of the string. *)
Example type_without_semicolon :
  option_map type
    (match DataMan browser_env (DString "data:text/plain,hello") None with
     | Returned o => Some o
     | Threw _ => None
     end)
  = Some (Some "text/plain,hell").
Proof. reflexivity. Qed.

Example size_of_data_uri :
  delivered (snd (size browser_env (AFunction (observe VNumber))
                    (fresh (constructed
                              (DataMan browser_env
                                 (DString "data:text/plain;base64,SGVsbG8=")
                                 None)))))
  = [(None, Some (VNumber 5))].
Proof. vm_compute. reflexivity. Qed.

Example bytes_three_to_eight :
  delivered (snd (getBinary browser_env (ANumber 3) (ANumber 8)
                    (AFunction (observe VBytes)) (fresh ten_instance)))
  = [(None, Some (VBytes (map u8 [3; 4; 5; 6; 7]%N)))].
Proof. vm_compute. reflexivity. Qed.

(** [getBinary(5, cb)]: the function sits in the [end] position, so the
    whole data is read and handed to the default callback; [cb] is not
    called. *)
Example callback_in_end_position :
  let w := snd (getBinary browser_env (ANumber 5)
                  (AFunction (observe VBytes)) AUndefined
                  (fresh ten_instance)) in
  io w = [IoReadAsArrayBuffer ten_blob] /\ delivered w = [] /\ uncaught w = [].
Proof. vm_compute. repeat split. Qed.

(* ================================================================== *)
(** * Further properties *)

(** ** Base64 round trip *)

Lemma bytes_ind3 (P : bytes -> Prop) :
  P [] -> (forall a, P [a]) -> (forall a b, P [a; b]) ->
  (forall a b c rest, P rest -> P (a :: b :: c :: rest)) ->
  forall l, P l.
Proof.
  intros H0 H1 H2 H3.
  assert (H : forall l, P l /\ (forall a, P (a :: l))
                        /\ (forall a b, P (a :: b :: l))).
  { induction l as [|c l (IH0 & IH1 & IH2)]; [auto|].
    repeat split; auto. }
  intros l. apply H.
Qed.

Lemma group_bound (n k : N) : (group n k < 64)%N.
Proof.
  unfold group. change 63%N with (N.ones 6). rewrite N.land_ones.
  apply N.mod_lt. discriminate.
Qed.

Lemma digit_ok_all : forallb digit_ok (map N.of_nat (seq 0 64)) = true.
Proof. vm_compute. reflexivity. Qed.

Lemma digit_facts (m : N) :
  (m < 64)%N ->
  Base64.value (Base64.digit m) = Some m
  /\ Base64.is_space (Base64.digit m) = false
  /\ Ascii.eqb (Base64.digit m) "=" = false
  /\ Ascii.eqb (Base64.digit m) "," = false.
Proof.
  intros Hm.
  assert (Hin : In m (map N.of_nat (seq 0 64))).
  { apply in_map_iff. exists (N.to_nat m). split; [apply N2Nat.id|].
    apply in_seq. lia. }
  pose proof (proj1 (forallb_forall _ _) digit_ok_all m Hin) as Hok.
  unfold digit_ok in Hok.
  repeat (apply andb_prop in Hok; destruct Hok as [Hok ?]).
  destruct (Base64.value (Base64.digit m)) as [v|]; [|discriminate].
  apply N.eqb_eq in Hok. subst v.
  repeat split; now apply negb_true_iff.
Qed.

Lemma sextet_facts (n k : N) :
  Base64.sextet n k = Base64.digit (group n k)
  /\ Base64.value (Base64.sextet n k) = Some (group n k)
  /\ Base64.is_space (Base64.sextet n k) = false
  /\ Ascii.eqb (Base64.sextet n k) "=" = false
  /\ Ascii.eqb (Base64.sextet n k) "," = false.
Proof.
  split; [reflexivity|]. exact (digit_facts (group_bound n k)).
Qed.

Ltac sextets_known :=
  repeat match goal with
  | |- context [Base64.is_space (Base64.sextet ?n ?k)] =>
      rewrite (proj1 (proj2 (proj2 (sextet_facts n k))))
  | |- context [Ascii.eqb (Base64.sextet ?n ?k) "="] =>
      rewrite (proj1 (proj2 (proj2 (proj2 (sextet_facts n k)))))
  | |- context [Ascii.eqb (Base64.sextet ?n ?k) ","] =>
      rewrite (proj2 (proj2 (proj2 (proj2 (sextet_facts n k)))))
  | |- context [Base64.value (Base64.sextet ?n ?k)] =>
      rewrite (proj1 (proj2 (sextet_facts n k)))
  end.

Lemma encode_no_space (l : bytes) :
  Base64.strip_space (Base64.encode l) = Base64.encode l.
Proof.
  induction l as [|a|a b|a b c rest IH] using bytes_ind3;
    cbn [Base64.encode Base64.strip_space]; sextets_known;
    try reflexivity.
  now rewrite IH.
Qed.

Lemma mod4_step (n : nat) : (S (S (S (S n))) mod 4 = n mod 4)%nat.
Proof.
  replace (S (S (S (S n)))) with (n + 1 * 4)%nat by lia.
  apply Nat.Div0.mod_add.
Qed.

Lemma encode_length (l : bytes) :
  (String.length (Base64.encode l) mod 4 = 0
   /\ (l <> [] -> 4 <= String.length (Base64.encode l)))%nat.
Proof.
  induction l as [|a|a b|a b c rest [IH _]] using bytes_ind3;
    cbn [Base64.encode String.length]; try (split; [reflexivity|lia]).
  - split; [reflexivity|congruence].
  - split; [|lia]. rewrite mod4_step. exact IH.
Qed.

Lemma strip_padding_quad (c1 c2 c3 c4 : ascii) (s : string) :
  (String.length s mod 4 = 0)%nat -> (4 <= String.length s)%nat ->
  Base64.strip_padding (String c1 (String c2 (String c3 (String c4 s))))
  = String c1 (String c2 (String c3 (String c4 (Base64.strip_padding s)))).
Proof.
  intros Hmod Hlen. unfold Base64.strip_padding.
  cbn [String.length].
  set (n := String.length s) in *.
  rewrite mod4_step, Hmod. simpl (Nat.eqb 0 0).
  replace (Nat.leb 1 n) with true by (symmetry; apply Nat.leb_le; lia).
  cbn [Nat.leb andb].
  replace (S (S (S (S n))) - 2)%nat with (S (S (S (S (n - 2))))) by lia.
  replace (S (S (S (S n))) - 1)%nat with (S (S (S (S (n - 1))))) by lia.
  cbn [String.substring].
  destruct (String.eqb (String.substring (n - 2) 2 s) "==");
    [reflexivity|].
  destruct (String.eqb (String.substring (n - 1) 1 s) "="); reflexivity.
Qed.

Lemma encode_strip_padding (l : bytes) :
  Base64.strip_padding (Base64.encode l) = unpadded l.
Proof.
  induction l as [|a|a b|a b c rest IH] using bytes_ind3.
  - reflexivity.
  - reflexivity.
  - cbn [Base64.encode unpadded]. unfold Base64.strip_padding.
    cbn [String.length Nat.modulo Nat.eqb Nat.leb andb Nat.sub
         String.substring String.eqb].
    simpl. sextets_known. reflexivity.
  - cbn [Base64.encode unpadded].
    destruct rest as [|r rest'].
    + unfold Base64.strip_padding. simpl. sextets_known. reflexivity.
    + destruct (encode_length (r :: rest')) as [Hmod Hlen].
      rewrite strip_padding_quad by (auto; apply Hlen; discriminate).
      now rewrite IH.
Qed.

Lemma unpadded_length (l : bytes) :
  Nat.eqb (String.length (unpadded l) mod 4) 1 = false.
Proof.
  induction l as [|a|a b|a b c rest IH] using bytes_ind3;
    cbn [unpadded String.length]; try reflexivity.
  now rewrite mod4_step.
Qed.

Lemma unpadded_values (l : bytes) :
  Base64.values (unpadded l) = Some (sextets l).
Proof.
  induction l as [|a|a b|a b c rest IH] using bytes_ind3;
    cbn [unpadded sextets Base64.values]; sextets_known;
    try reflexivity.
  now rewrite IH.
Qed.

Local Open Scope N_scope.

(** Joining a shifted part with a part that fits below it is addition. *)
Lemma lor_shiftl_add (x y k : N) :
  y < 2 ^ k -> N.lor (N.shiftl x k) y = x * 2 ^ k + y.
Proof.
  intros Hy. rewrite <- N.shiftl_mul_pow2.
  rewrite <- N.lxor_lor, <- N.add_nocarry_lxor; trivial;
  apply N.bits_inj; intros i; rewrite N.land_spec, N.bits_0;
  (destruct (N.ltb_spec i k) as [Hlt|Hge];
   [ rewrite N.shiftl_spec_low by assumption; reflexivity
   | destruct (N.eq_dec y 0) as [->|Hy0];
     [ rewrite N.bits_0; apply andb_false_r
     | rewrite (N.bits_above_log2 y i), andb_false_r; trivial;
       apply N.log2_lt_pow2; [lia|];
       eapply N.lt_le_trans; [exact Hy|]; apply N.pow_le_mono_r; lia ] ]).
Qed.

Lemma to_N_small (a : byte) : Byte.to_N a < 256.
Proof. pose proof (Byte.to_N_bounded a). lia. Qed.

Lemma pack_sum (a b c : byte) :
  Base64.pack a b c
  = Byte.to_N a * 65536 + (Byte.to_N b * 256 + Byte.to_N c).
Proof.
  unfold Base64.pack.
  pose proof (to_N_small a). pose proof (to_N_small b).
  pose proof (to_N_small c).
  rewrite (@lor_shiftl_add (Byte.to_N b) (Byte.to_N c) 8)
    by (change (2 ^ 8) with 256; assumption).
  rewrite lor_shiftl_add
    by (change (2 ^ 8) with 256; change (2 ^ 16) with 65536; lia).
  reflexivity.
Qed.

Lemma group_div (n k : N) : group n k = (n / 2 ^ (6 * k)) mod 64.
Proof.
  unfold group. change 63 with (N.ones 6).
  now rewrite N.land_ones, N.shiftr_div_pow2.
Qed.

Lemma chr_byte (a : byte) : Base64.chr (Byte.to_N a) = ascii_of_byte a.
Proof. destruct a; reflexivity. Qed.

Lemma chr_mod (n : N) : Base64.chr n = Base64.chr (n mod 256).
Proof.
  unfold Base64.chr. change 255 with (N.ones 8).
  rewrite !N.land_ones. now rewrite N.Div0.mod_mod.
Qed.

Ltac euclid := zify; Z.to_euclidean_division_equations; lia.

(** The four groups of a packed triple put together again give back its
    three bytes. *)
Lemma quad_bytes (a b c : byte) :
  let n := Base64.pack a b c in
  let m := N.shiftl (group n 3) 18 + N.shiftl (group n 2) 12
           + N.shiftl (group n 1) 6 + group n 0 in
  Base64.chr (N.shiftr m 16) = ascii_of_byte a
  /\ Base64.chr (N.shiftr m 8) = ascii_of_byte b
  /\ Base64.chr m = ascii_of_byte c.
Proof.
  intros n m. subst m. rewrite !group_div, !N.shiftl_mul_pow2.
  rewrite !N.shiftr_div_pow2.
  subst n. rewrite pack_sum.
  pose proof (to_N_small a). pose proof (to_N_small b).
  pose proof (to_N_small c).
  set (A := Byte.to_N a) in *. set (B := Byte.to_N b) in *.
  set (C := Byte.to_N c) in *.
  change (2 ^ (6 * 3)) with 262144. change (2 ^ (6 * 2)) with 4096.
  change (2 ^ (6 * 1)) with 64. change (2 ^ (6 * 0)) with 1.
  change (2 ^ 18) with 262144. change (2 ^ 12) with 4096.
  change (2 ^ 6) with 64. change (2 ^ 16) with 65536.
  change (2 ^ 8) with 256.
  rewrite <- (chr_byte a), <- (chr_byte b), <- (chr_byte c).
  fold A B C.
  rewrite (chr_mod (_ / 65536)), (chr_mod (_ / 256)),
    (chr_mod (_ + _ mod 64)).
  repeat split; f_equal; euclid.
Qed.

Ltac small_powers :=
  change (2 ^ (6 * 3)) with 262144; change (2 ^ (6 * 2)) with 4096;
  change (2 ^ (6 * 1)) with 64; change (2 ^ (6 * 0)) with 1;
  change (2 ^ 18) with 262144; change (2 ^ 12) with 4096;
  change (2 ^ 6) with 64; change (2 ^ 16) with 65536;
  change (2 ^ 8) with 256.

Lemma pair_bytes (a b : byte) :
  let n := Base64.pack a b x00 in
  let m := N.shiftl (group n 3) 18 + N.shiftl (group n 2) 12
           + N.shiftl (group n 1) 6 in
  Base64.chr (N.shiftr m 16) = ascii_of_byte a
  /\ Base64.chr (N.shiftr m 8) = ascii_of_byte b.
Proof.
  intros n m. subst m. rewrite !group_div, !N.shiftl_mul_pow2.
  rewrite !N.shiftr_div_pow2.
  subst n. rewrite pack_sum. change (Byte.to_N x00) with 0.
  pose proof (to_N_small a). pose proof (to_N_small b).
  set (A := Byte.to_N a) in *. set (B := Byte.to_N b) in *.
  small_powers.
  rewrite <- (chr_byte a), <- (chr_byte b). fold A B.
  rewrite (chr_mod (_ / 65536)), (chr_mod (_ / 256)).
  repeat split; f_equal; euclid.
Qed.

Lemma single_byte (a : byte) :
  let n := Base64.pack a x00 x00 in
  let m := N.shiftl (group n 3) 18 + N.shiftl (group n 2) 12 in
  Base64.chr (N.shiftr m 16) = ascii_of_byte a.
Proof.
  intros n m. subst m. rewrite !group_div, !N.shiftl_mul_pow2.
  rewrite !N.shiftr_div_pow2.
  subst n. rewrite pack_sum. change (Byte.to_N x00) with 0.
  pose proof (to_N_small a). set (A := Byte.to_N a) in *.
  small_powers.
  rewrite <- (chr_byte a). fold A.
  rewrite (chr_mod (_ / 65536)).
  f_equal; euclid.
Qed.

Lemma decode_sextets (l : bytes) :
  Base64.decode_values (sextets l) = string_of_list_byte l.
Proof.
  induction l as [|a|a b|a b c rest IH] using bytes_ind3.
  - reflexivity.
  - cbn [sextets Base64.decode_values].
    now rewrite (single_byte a).
  - cbn [sextets Base64.decode_values].
    destruct (pair_bytes a b) as [-> ->]. reflexivity.
  - cbn [sextets Base64.decode_values].
    destruct (quad_bytes a b c) as (-> & -> & ->). rewrite IH. reflexivity.
Qed.

(** Decoding what was encoded gives the bytes back. *)
Lemma decode_encode (l : bytes) :
  Base64.decode (Base64.encode l) = Some (string_of_list_byte l).
Proof.
  unfold Base64.decode.
  rewrite encode_no_space, encode_strip_padding, unpadded_length,
    unpadded_values.
  simpl. now rewrite decode_sextets.
Qed.

Lemma u8_of_byte (a : byte) : u8 (N_of_ascii (ascii_of_byte a)) = a.
Proof. destruct a; reflexivity. Qed.

Lemma char_codes_of_bytes (l : bytes) :
  char_codes (string_of_list_byte l) = l.
Proof.
  unfold char_codes, string_of_list_byte.
  rewrite list_ascii_of_string_of_list_ascii, map_map.
  induction l as [|a l IH]; simpl; [reflexivity|].
  now rewrite u8_of_byte, IH.
Qed.

Local Close Scope N_scope.

(** ** Splitting at a separator *)

Lemma contains_append (c : ascii) (x y : string) :
  contains c (x ++ y) = contains c x || contains c y.
Proof.
  induction x as [|a x IH]; simpl; [reflexivity|].
  now rewrite IH, orb_assoc.
Qed.

Lemma split_nonempty (c : ascii) (s : string) : JsString.split c s <> [].
Proof.
  induction s as [|a s IH]; simpl; [discriminate|].
  destruct (Ascii.eqb a c); [discriminate|].
  destruct (JsString.split c s); [contradiction|discriminate].
Qed.

Lemma split_without (c : ascii) (s : string) :
  contains c s = false -> JsString.split c s = [s].
Proof.
  induction s as [|a s IH]; simpl; [reflexivity|].
  destruct (Ascii.eqb a c); [discriminate|]. simpl. intros H.
  now rewrite IH.
Qed.

Lemma split_at_first (c : ascii) (x y : string) :
  contains c x = false ->
  JsString.split c (x ++ String c y) = x :: JsString.split c y.
Proof.
  induction x as [|a x IH]; simpl.
  - now rewrite Ascii.eqb_refl.
  - destruct (Ascii.eqb a c); [discriminate|]. simpl. intros H.
    now rewrite IH.
Qed.

Lemma before_at_first (c : ascii) (x y : string) :
  contains c x = false -> before c (x ++ String c y) = x.
Proof.
  induction x as [|a x IH]; simpl.
  - now rewrite Ascii.eqb_refl.
  - destruct (Ascii.eqb a c); [discriminate|]. simpl. intros H.
    now rewrite IH.
Qed.

Lemma encode_no_comma (l : bytes) : contains "," (Base64.encode l) = false.
Proof.
  induction l as [|a|a b|a b c rest IH] using bytes_ind3;
    cbn [Base64.encode contains]; sextets_known; try reflexivity.
  now rewrite IH.
Qed.

(** The piece [atob] receives from a data URI whose header has no comma:
    the whole base64 text. *)
Lemma payload_of_encoded (header : string) (l : bytes) :
  contains "," header = false ->
  payload (header ++ String "," (Base64.encode l)) = Base64.encode l.
Proof.
  intros H. unfold payload.
  rewrite split_at_first by assumption.
  rewrite split_without by apply encode_no_comma. reflexivity.
Qed.

(** Without a comma there is no second piece. *)
Lemma payload_without_comma (u : string) :
  contains "," u = false -> payload u = "undefined".
Proof.
  intros H. unfold payload. now rewrite split_without.
Qed.

(** ** Data URIs, there and back *)

(** X1. [dataURItoBlob] undoes base64: from a data URI whose header has no
    comma and whose payload is the base64 text of [l], it returns a blob
    holding exactly the bytes [l], typed by the normalised [dataTYPE],
    after one call of [atob]. *)
Theorem dataURItoBlob_round_trip env (header : string) (l : bytes)
    (dataTYPE : option string) (w : World) :
  has_Blob env = true ->
  contains "," header = false ->
  dataURItoBlob env (header ++ String "," (Base64.encode l)) dataTYPE w
  = (Returned (mkBlob l (BlobApi.normalize_type dataTYPE)),
     traced (IoAtob (Base64.encode l)) w).
Proof.
  intros HB Hh. unfold dataURItoBlob.
  rewrite payload_of_encoded by assumption.
  unfold bind, log_io, modify. rewrite decode_encode, HB.
  unfold ret, BlobApi.create. now rewrite char_codes_of_bytes.
Qed.

Lemma append_assoc (x y z : string) : (x ++ y) ++ z = x ++ y ++ z.
Proof. induction x as [|a x IH]; simpl; [reflexivity|]. now rewrite IH. Qed.

Lemma data_uri_shape (buf : bytes) (t : string) :
  Server.data_uri_of buf t
  = ("data:" ++ t ++ ";base64") ++ String "," (Base64.encode buf).
Proof.
  unfold Server.data_uri_of. now rewrite !append_assoc.
Qed.

Lemma data_uri_header (t : string) :
  contains "," t = false -> contains "," ("data:" ++ t ++ ";base64") = false.
Proof.
  intros H. cbn [append contains]. simpl. rewrite contains_append, H.
  reflexivity.
Qed.

Lemma data_uri_prefix (buf : bytes) (t : string) :
  String.prefix "data:" (Server.data_uri_of buf t) = true.
Proof. unfold Server.data_uri_of. destruct t; reflexivity. Qed.

Lemma data_uri_type (buf : bytes) (t : string) :
  contains ";" t = false ->
  JsString.slice (Server.data_uri_of buf t) 5
    (JsString.indexOf ";" (Server.data_uri_of buf t)) = t.
Proof.
  intros H. rewrite type_of_data_uri.
  - unfold Server.data_uri_of. cbn [append drop].
    change (";base64," ++ Base64.encode buf)
      with (String ";" ("base64," ++ Base64.encode buf)).
    now apply before_at_first.
  - apply data_uri_prefix.
  - unfold Server.data_uri_of. cbn [append contains]. simpl.
    rewrite contains_append. simpl. now rewrite orb_true_r.
Qed.

Lemma data_uri_instance env (buf : bytes) (t : string)
    (hint : option string) :
  EJSON_isBinary env (DString (Server.data_uri_of buf t)) = false ->
  has_Blob env = true ->
  contains ";" t = false ->
  contains "," t = false ->
  let uri := Server.data_uri_of buf t in
  let o := mkInstance None (Some uri) None (Some t) None in
  let b := mkBlob buf (BlobApi.normalize_type (Some t)) in
  DataMan env (DString uri) hint = Returned o
  /\ Materialises env (fresh o) b
       (on_self (set_blob b) (traced (IoAtob (Base64.encode buf)) (fresh o))).
Proof.
  intros Hbin HB Hsemi Hcomma uri o b.
  split.
  - unfold DataMan. simpl as_File. simpl as_Blob.
    destruct (has_File env); rewrite HB; cbn iota;
      unfold instanceof_ArrayBuffer; rewrite andb_false_r; simpl orb;
      unfold uri at 1; rewrite Hbin;
      rewrite starts_with_data;
      unfold uri at 1; rewrite data_uri_prefix;
      unfold uri at 1 2; rewrite data_uri_type by assumption;
      reflexivity.
  - pose proof (@from_dataUri env (fresh o) uri (string_of_list_byte buf)
                  eq_refl eq_refl eq_refl) as H.
    unfold uri in H at 1 2.
    rewrite data_uri_shape in H.
    rewrite payload_of_encoded in H by now apply data_uri_header.
    specialize (H (decode_encode buf) HB).
    rewrite char_codes_of_bytes in H. exact H.
Qed.

(** X2. What the buffer variant encodes, the browser variant reads back:
    built from the data URI of [buf] under a type [t] without [;] or [,],
    the instance has type [t], [getBlob] hands over a blob of exactly the
    bytes [buf], and [size] hands over their number. *)
Theorem server_data_uri_read_back env (buf : bytes) (t : string)
    (hint : option string) :
  EJSON_isBinary env (DString (Server.data_uri_of buf t)) = false ->
  has_Blob env = true ->
  contains ";" t = false ->
  contains "," t = false ->
  let uri := Server.data_uri_of buf t in
  let o := mkInstance None (Some uri) None (Some t) None in
  DataMan env (DString uri) hint = Returned o
  /\ delivered (snd (getBlob env (observe VBlob) (fresh o)))
     = [(None, Some (VBlob (mkBlob buf (BlobApi.normalize_type (Some t)))))]
  /\ delivered (snd (size env (AFunction (observe VNumber)) (fresh o)))
     = [(None, Some (VNumber (byte_length buf)))].
Proof.
  intros Hbin HB Hsemi Hcomma. cbv zeta.
  pose proof (@data_uri_instance env buf t hint Hbin HB Hsemi Hcomma) as H.
  cbv zeta in H. destruct H as (Hcons & Hm).
  split; [exact Hcons|]. split.
  - rewrite (@getBlob_then env _ _ _ Hm (observe VBlob)
               (seen (None, Some (VBlob _)) _) eq_refl).
    reflexivity.
  - rewrite (size_first Hm) by reflexivity. reflexivity.
Qed.

Lemma server_data_uri_read_back_witness :
  contains ";" "text/plain" = false
  /\ contains "," "text/plain" = false
  /\ DataMan browser_env (DString (Server.data_uri_of hello "text/plain")) None
     = Returned (mkInstance None (Some (Server.data_uri_of hello "text/plain"))
                            None (Some "text/plain") None)
  /\ delivered (snd (size browser_env (AFunction (observe VNumber))
                       (fresh (mkInstance None
                                 (Some (Server.data_uri_of hello "text/plain"))
                                 None (Some "text/plain") None))))
     = [(None, Some (VNumber (byte_length hello)))].
Proof.
  split; [reflexivity|]. split; [reflexivity|].
  pose proof (@server_data_uri_read_back browser_env hello "text/plain" None
                eq_refl eq_refl eq_refl eq_refl) as (Hc & _ & Hs).
  split; [exact Hc|exact Hs].
Defined.

Lemma dataURItoBlob_round_trip_witness :
  contains "," "data:text/plain;base64" = false
  /\ dataURItoBlob browser_env
       ("data:text/plain;base64" ++ String "," (Base64.encode hello))
       (Some "text/plain") (fresh empty)
     = (Returned (mkBlob hello "text/plain"),
        traced (IoAtob (Base64.encode hello)) (fresh empty)).
Proof.
  split; [reflexivity|].
  exact (@dataURItoBlob_round_trip browser_env "data:text/plain;base64" hello
           (Some "text/plain") (fresh empty) eq_refl eq_refl).
Defined.

(** With a type, the data URL of a blob is the data URI the buffer
    variant builds for its bytes. *)
Lemma data_url_with_type (buf : bytes) (t : string) :
  JsString.truthy t = true ->
  data_url (mkBlob buf t) = Server.data_uri_of buf t.
Proof.
  intros Ht. unfold data_url, Server.data_uri_of. simpl. now rewrite Ht.
Qed.

(** X3. Round trip through [getDataUri]: where the file reader renders the
    blob as [data:<type>;base64,<payload>], an instance built from the data
    URI of [buf] under a non-empty, normalised type [t] hands back that
    very string and keeps it, and its type, on the instance. *)
Theorem data_uri_round_trip env (buf : bytes) (t : string)
    (hint : option string) :
  EJSON_isBinary env (DString (Server.data_uri_of buf t)) = false ->
  has_Blob env = true ->
  has_FileReader env = true ->
  reader_error env (mkBlob buf t) = None ->
  reader_dataURL env (mkBlob buf t) = data_url (mkBlob buf t) ->
  JsString.truthy t = true ->
  contains ";" t = false ->
  contains "," t = false ->
  BlobApi.normalize_type (Some t) = t ->
  let uri := Server.data_uri_of buf t in
  let o := mkInstance None (Some uri) None (Some t) None in
  let w := snd (getDataUri env (AFunction (observe VString)) (fresh o)) in
  DataMan env (DString uri) hint = Returned o
  /\ delivered w = [(None, Some (VString uri))]
  /\ dataUri (self w) = Some uri
  /\ type (self w) = Some t.
Proof.
  intros Hbin HB HFR Hread Hurl Ht Hsemi Hcomma Hnorm. cbv zeta.
  pose proof (@data_uri_instance env buf t hint Hbin HB Hsemi Hcomma) as H.
  cbv zeta in H. destruct H as (Hcons & Hm).
  split; [exact Hcons|]. rewrite Hnorm in Hm.
  rewrite (getDataUri_always_reads Hm HFR Hread), Hurl.
  rewrite (@data_url_with_type buf t Ht).
  split; [reflexivity|]. split; reflexivity.
Qed.

Lemma data_uri_round_trip_witness :
  JsString.truthy "text/plain" = true
  /\ BlobApi.normalize_type (Some "text/plain") = "text/plain"
  /\ delivered (snd (getDataUri browser_env (AFunction (observe VString))
                       (fresh (mkInstance None
                                 (Some (Server.data_uri_of hello "text/plain"))
                                 None (Some "text/plain") None))))
     = [(None, Some (VString (Server.data_uri_of hello "text/plain")))].
Proof.
  split; [reflexivity|]. split; [reflexivity|].
  exact (proj1 (proj2 (@data_uri_round_trip browser_env hello "text/plain" None
                         eq_refl eq_refl eq_refl eq_refl eq_refl eq_refl
                         eq_refl eq_refl eq_refl))).
Defined.

(** ** Every way [getBlob] can go *)

Lemma Materialises_self env w b w1 :
  Materialises env w b w1 ->
  blob (self w1) = Some b
  /\ (self w1 = self w
      \/ (blob (self w) = None /\ self w1 = set_blob b (self w))).
Proof.
  intros H. destruct H; simpl; auto.
Qed.

Lemma getBlob_cases env (w : World) :
  (exists b w1, Materialises env w b w1)
  \/ (exists u evt, TransportFails env w u evt)
  \/ (exists e, forall k : Callback World Blob,
         getBlob env k w
         = (Threw e,
            traced (IoAtob (payload (match dataUri (self w) with
                                     | Some u => u
                                     | None => ""
                                     end))) w))
  \/ (blob (self w) = None
      /\ truthy_str (dataUri (self w)) = false
      /\ truthy_str (url (self w)) = false
      /\ forall k : Callback World Blob, getBlob env k w = (Returned tt, w)).
Proof.
  destruct (blob (self w)) as [b|] eqn:Hb.
  { left. exists b, w. now apply from_blob. }
  destruct (truthy_str (dataUri (self w))) eqn:Hd.
  - destruct (dataUri (self w)) as [u|] eqn:Hu; [|discriminate].
    simpl in Hd.
    destruct (Base64.decode (payload u)) as [str|] eqn:Hdec.
    + destruct (has_Blob env) eqn:HB.
      * left. eexists. eexists. eapply from_dataUri; eauto.
      * right. right. left. exists (ReferenceError "Blob"). intros k.
        unfold getBlob, bind, get. rewrite Hb, Hu. simpl. rewrite Hd.
        unfold dataURItoBlob, bind, log_io, modify. rewrite Hdec, HB.
        reflexivity.
    + right. right. left. exists InvalidCharacterError. intros k.
      unfold getBlob, bind, get. rewrite Hb, Hu. simpl. rewrite Hd.
      unfold dataURItoBlob, bind, log_io, modify. rewrite Hdec.
      reflexivity.
  - destruct (truthy_str (url (self w))) eqn:Hurl.
    + destruct (url (self w)) as [u|] eqn:Hu; [|discriminate].
      simpl in Hurl.
      destruct (xhr_response env u) as [r|evt] eqn:Hx.
      * left. eexists. eexists. eapply from_url; eauto.
      * right. left. exists u, evt. repeat split; auto.
    + right. right. right. repeat split; auto. intros k.
      unfold getBlob, bind, get. rewrite Hb, Hd, Hurl. reflexivity.
Qed.

(** ** Data URIs that cannot be decoded *)

(** X4. A data URI whose payload [atob] rejects makes every accessor throw
    InvalidCharacterError to its caller, whatever the arguments: no
    callback is invoked and nothing is cached. *)
Theorem undecodable_data_uri_throws env (w : World) (u : string) :
  blob (self w) = None ->
  dataUri (self w) = Some u ->
  JsString.truthy u = true ->
  Base64.decode (payload u) = None ->
  let thrown := (Threw InvalidCharacterError, traced (IoAtob (payload u)) w) in
  (forall k, getBlob env k w = thrown)
  /\ (forall start end_ callback, getBinary env start end_ callback w = thrown)
  /\ (forall f, has_FileReader env = true ->
        getDataUri env (AFunction f) w = thrown)
  /\ (forall callback, truthy callback = true -> _size (self w) = None ->
        size env callback w
        = (Threw InvalidCharacterError, traced (IoAtob (payload u)) w))
  /\ (forall filename, has_window env = true ->
        saveAs env filename w = thrown).
Proof.
  intros Hb Hu Ht Hdec thrown.
  assert (Hget : forall k, getBlob env k w = thrown).
  { intros k. unfold getBlob, bind, get. rewrite Hb, Hu. simpl. rewrite Ht.
    unfold dataURItoBlob, bind, log_io, modify. rewrite Hdec. reflexivity. }
  split; [exact Hget|]. split; [|split; [|split]].
  - intros start end_ callback. unfold getBinary. apply Hget.
  - intros f HFR. unfold getDataUri. simpl. rewrite HFR. simpl. apply Hget.
  - intros callback Hc Hn. unfold size. rewrite Hc. simpl.
    unfold bind at 1. unfold get. rewrite Hn. unfold bind at 1.
    rewrite Hget. reflexivity.
  - intros filename Hw. unfold saveAs. rewrite Hw. simpl. apply Hget.
Qed.

Lemma undecodable_data_uri_throws_witness :
  Base64.decode (payload "data:text/plain,hello") = None
  /\ getBinary browser_env AUndefined AUndefined
       (AFunction (observe VBytes)) (fresh comma_instance)
     = (Threw InvalidCharacterError,
        traced (IoAtob "hello") (fresh comma_instance)).
Proof.
  split; [reflexivity|].
  exact (proj1 (proj2
           (@undecodable_data_uri_throws browser_env (fresh comma_instance)
              "data:text/plain,hello" eq_refl eq_refl eq_refl eq_refl))
           AUndefined AUndefined (AFunction (observe VBytes))).
Defined.

(** X5. A [data:] string without a comma passes the constructor, and then
    [getBlob] throws: the missing payload reaches [atob] as [undefined]. *)
Theorem data_uri_without_comma env (s : string) (hint : option string) :
  String.prefix "data:" s = true ->
  contains "," s = false ->
  EJSON_isBinary env (DString s) = false ->
  exists o,
    DataMan env (DString s) hint = Returned o
    /\ forall k : Callback World Blob,
         getBlob env k (fresh o)
         = (Threw InvalidCharacterError,
            traced (IoAtob "undefined") (fresh o)).
Proof.
  intros Hp Hc Hbin.
  exists (set_type (Some (JsString.slice s 5 (JsString.indexOf ";" s)))
                   (set_dataUri s empty)).
  split.
  - unfold DataMan. simpl as_File. simpl as_Blob.
    destruct (has_File env), (has_Blob env); cbn iota;
      unfold instanceof_ArrayBuffer; rewrite andb_false_r; simpl orb;
      rewrite Hbin, starts_with_data, Hp; reflexivity.
  - intros k.
    assert (Ht : JsString.truthy s = true).
    { destruct s; [discriminate Hp|reflexivity]. }
    unfold getBlob, bind, get. simpl. rewrite Ht.
    unfold dataURItoBlob, bind, log_io, modify.
    rewrite (payload_without_comma _ Hc). reflexivity.
Qed.

Lemma data_uri_without_comma_witness :
  String.prefix "data:" "data:text/plain" = true
  /\ contains "," "data:text/plain" = false
  /\ exists o,
       DataMan browser_env (DString "data:text/plain") None = Returned o
       /\ forall k : Callback World Blob,
            getBlob browser_env k (fresh o)
            = (Threw InvalidCharacterError,
               traced (IoAtob "undefined") (fresh o)).
Proof.
  split; [reflexivity|]. split; [reflexivity|].
  exact (@data_uri_without_comma browser_env "data:text/plain" None
           eq_refl eq_refl eq_refl).
Defined.

(** ** [getBlob] and [saveAs] on data that materialises *)

Lemma getBlob_observed env w w1 b :
  Materialises env w b w1 ->
  getBlob env (observe VBlob) w = (Returned tt, seen (None, Some (VBlob b)) w1).
Proof. intros Hm. now apply (getBlob_then Hm). Qed.

(** X6. Data that has materialised is handed over from the cache: a second
    [getBlob] delivers the same blob, makes no host call and leaves the
    instance as it is. *)
Theorem getBlob_twice env w w1 b :
  Materialises env w b w1 ->
  let first := getBlob env (observe VBlob) w in
  let second := getBlob env (observe VBlob) (snd first) in
  delivered (snd second)
  = (delivered w ++ [(None, Some (VBlob b)); (None, Some (VBlob b))])%list
  /\ io (snd second) = io (snd first)
  /\ self (snd second) = self (snd first).
Proof.
  intros Hm first second.
  destruct (Materialises_delivered Hm) as (Hd & _ & _ & Hb).
  assert (H1 : first = (Returned tt, seen (None, Some (VBlob b)) w1))
    by now apply getBlob_observed.
  assert (H2 : second
               = (Returned tt,
                  seen (None, Some (VBlob b))
                       (seen (None, Some (VBlob b)) w1))).
  { unfold second. rewrite H1. simpl snd.
    apply getBlob_observed. now apply from_blob. }
  rewrite H2, H1. simpl. rewrite Hd, <- app_assoc. auto.
Qed.

Lemma getBlob_twice_witness :
  Materialises browser_env (fresh charset_instance)
    (mkBlob hello "text/plain")
    (on_self (set_blob (mkBlob hello "text/plain"))
       (traced (IoAtob "SGVsbG8=") (fresh charset_instance)))
  /\ io (snd (getBlob browser_env (observe VBlob)
                (snd (getBlob browser_env (observe VBlob)
                        (fresh charset_instance)))))
     = io (snd (getBlob browser_env (observe VBlob)
                  (fresh charset_instance))).
Proof.
  assert (Hm : Materialises browser_env (fresh charset_instance)
                 (mkBlob hello "text/plain")
                 (on_self (set_blob (mkBlob hello "text/plain"))
                    (traced (IoAtob "SGVsbG8=") (fresh charset_instance)))).
  { exact (@from_dataUri browser_env (fresh charset_instance) charset_uri
             "Hello" eq_refl eq_refl eq_refl eq_refl eq_refl). }
  split; [exact Hm|].
  exact (proj1 (proj2 (getBlob_twice Hm))).
Defined.

(** X9. Where [window.saveAs] exists, [saveAs] hands it the instance's blob
    and the file name, once, and does nothing else. *)
Theorem saveAs_saves_the_blob env w w1 b (filename : option string) :
  Materialises env w b w1 ->
  has_window env = true ->
  has_window_saveAs env = true ->
  saveAs env filename w = (Returned tt, traced (IoSaveAs b filename) w1).
Proof.
  intros Hm Hw Hs. unfold saveAs. rewrite Hw. simpl.
  apply (getBlob_then Hm).
  unfold bind, the_blob, ret, window_saveAs. rewrite Hs. reflexivity.
Qed.

Lemma saveAs_saves_the_blob_witness :
  Materialises browser_env (fresh hello_instance) hello_blob
    (fresh hello_instance)
  /\ saveAs browser_env (Some "hello.txt") (fresh hello_instance)
     = (Returned tt,
        traced (IoSaveAs hello_blob (Some "hello.txt")) (fresh hello_instance)).
Proof.
  assert (Hm : Materialises browser_env (fresh hello_instance) hello_blob
                 (fresh hello_instance)) by (apply from_blob; reflexivity).
  split; [exact Hm|].
  exact (@saveAs_saves_the_blob browser_env _ _ _ (Some "hello.txt") Hm
           eq_refl eq_refl).
Defined.

(** ** [getBinary]: which blob is read, and what comes of reading *)

Lemma getBinary_outcome env w w1 b (start end_ : Arg bytes) :
  Materialises env w b w1 ->
  is_function start = false ->
  getBinary env start end_ (AFunction (observe VBytes)) w
  = (Returned tt,
     match to_read env (type (self w1)) b start end_ with
     | inl e => seen (Some e, None) w1
     | inr p => after_read env p w1
     end).
Proof.
  intros Hm Hs. unfold getBinary. rewrite Hs. simpl.
  apply (getBlob_then Hm).
  unfold bind, the_blob, ret, to_read, after_read.
  assert (Hread : forall p,
    (if negb (has_FileReader env)
     then call (AFunction (observe VBytes)) (Some NoFileReader) None
     else readAsArrayBuffer env p
            (fun result => call (AFunction (observe VBytes)) None (Some result))
            (fun err => call (AFunction (observe VBytes)) (Some err) None)) w1
    = (Returned tt,
       if negb (has_FileReader env) then seen (Some NoFileReader, None) w1
       else match reader_error env p with
            | None => seen (None, Some (VBytes (blob_bytes p)))
                           (traced (IoReadAsArrayBuffer p) w1)
            | Some evt =>
                seen (Some evt, None) (traced (IoReadAsArrayBuffer p) w1)
            end)).
  { intros p. destruct (negb (has_FileReader env)); [reflexivity|].
    unfold readAsArrayBuffer, bind, log_io, modify.
    destruct (reader_error env p); reflexivity. }
  destruct start as [s| | | | |]; try discriminate Hs; try apply Hread.
  destruct end_ as [e| | | | |]; try apply Hread.
  destruct (s >=? blob_size b); [reflexivity|].
  destruct (has_slice env || has_webkitSlice env || has_mozSlice env);
    [|reflexivity].
  unfold get. apply Hread.
Qed.

(** X10. Once the data has materialised, [getBinary] invokes its callback
    exactly once and throws nothing, for every choice of [start] and [end]
    and on every host, whatever it lacks and however the read ends. *)
Theorem getBinary_calls_back_once env w w1 b (start end_ : Arg bytes) :
  Materialises env w b w1 ->
  is_function start = false ->
  exists d w2,
    getBinary env start end_ (AFunction (observe VBytes)) w
    = (Returned tt, seen d w2)
    /\ delivered w2 = delivered w
    /\ uncaught w2 = uncaught w.
Proof.
  intros Hm Hs. rewrite (@getBinary_outcome env w w1 b start end_ Hm Hs).
  destruct (Materialises_delivered Hm) as (Hd & Hu & _ & _).
  destruct (to_read env (type (self w1)) b start end_) as [e|p].
  - exists (Some e, None), w1. auto.
  - unfold after_read. destruct (negb (has_FileReader env)).
    + exists (Some NoFileReader, None), w1. auto.
    + destruct (reader_error env p) as [evt|]; eexists; eexists;
        (split; [reflexivity|]); simpl; auto.
Qed.

Lemma getBinary_calls_back_once_witness :
  Materialises browser_env (fresh ten_instance) ten_blob (fresh ten_instance)
  /\ exists d w2,
       getBinary browser_env (ANumber 3) (AString "x")
         (AFunction (observe VBytes)) (fresh ten_instance)
       = (Returned tt, seen d w2)
       /\ delivered w2 = delivered (fresh ten_instance)
       /\ uncaught w2 = uncaught (fresh ten_instance).
Proof.
  assert (Hm : Materialises browser_env (fresh ten_instance) ten_blob
                 (fresh ten_instance)) by (apply from_blob; reflexivity).
  split; [exact Hm|].
  exact (@getBinary_calls_back_once browser_env _ _ _ (ANumber 3)
           (AString "x") Hm eq_refl).
Defined.

Lemma getBinary_function_first env w w1 b (f : Callback World bytes)
    (end_ callback : Arg bytes) :
  Materialises env w b w1 ->
  has_FileReader env = true ->
  reader_error env b = None ->
  getBinary env (AFunction f) end_ callback w
  = async (f None (Some (blob_bytes b))) (traced (IoReadAsArrayBuffer b) w1).
Proof.
  intros Hm HFR Hread. unfold getBinary. simpl.
  eapply getBlob_then_async; [exact Hm|].
  unfold bind, the_blob, ret. simpl. rewrite HFR. simpl.
  unfold readAsArrayBuffer, bind, log_io, modify. rewrite Hread.
  reflexivity.
Qed.

(** X11. [getBinary(callback)]: a function in first position is the callback;
    the whole data is read and handed to it, whatever the other two
    arguments are. *)
Theorem getBinary_callback_first env w w1 b (f : Callback World bytes)
    (end_ callback : Arg bytes) :
  Materialises env w b w1 ->
  has_FileReader env = true ->
  reader_error env b = None ->
  getBinary env (AFunction f) end_ callback w
  = async (f None (Some (blob_bytes b))) (traced (IoReadAsArrayBuffer b) w1).
Proof. exact (@getBinary_function_first env w w1 b f end_ callback). Qed.

Lemma getBinary_callback_first_witness :
  Materialises browser_env (fresh ten_instance) ten_blob (fresh ten_instance)
  /\ getBinary browser_env (AFunction (observe VBytes)) AUndefined AUndefined
       (fresh ten_instance)
     = async (observe VBytes None (Some ten))
             (traced (IoReadAsArrayBuffer ten_blob) (fresh ten_instance)).
Proof.
  assert (Hm : Materialises browser_env (fresh ten_instance) ten_blob
                 (fresh ten_instance)) by (apply from_blob; reflexivity).
  split; [exact Hm|].
  exact (@getBinary_callback_first browser_env _ _ _ (observe VBytes)
           AUndefined AUndefined Hm eq_refl eq_refl).
Defined.

(** X12. A host without a slicing method answers a ranged read below the
    size with the File.slice error; a host without [FileReader] answers
    every read with the FileReader error. Both come through the callback,
    after the data has materialised, and no read is started. *)
Theorem getBinary_missing_capabilities env w w1 b :
  Materialises env w b w1 ->
  (has_slice env || has_webkitSlice env || has_mozSlice env = false ->
   forall s e, s < blob_size b ->
     getBinary env (ANumber s) (ANumber e) (AFunction (observe VBytes)) w
     = (Returned tt, seen (Some NoSlice, None) w1))
  /\ (has_FileReader env = false ->
      (forall start end_,
         is_function start = false ->
         is_number start && is_number end_ = false ->
         getBinary env start end_ (AFunction (observe VBytes)) w
         = (Returned tt, seen (Some NoFileReader, None) w1))
      /\ (forall s e,
            s < blob_size b ->
            has_slice env || has_webkitSlice env || has_mozSlice env = true ->
            getBinary env (ANumber s) (ANumber e)
                      (AFunction (observe VBytes)) w
            = (Returned tt, seen (Some NoFileReader, None) w1))).
Proof.
  intros Hm. split; [|intros HFR; split].
  - intros Hsl s e Hs.
    rewrite (@getBinary_outcome env w w1 b (ANumber s) (ANumber e) Hm eq_refl).
    unfold to_read. destruct (Z.geb_spec s (blob_size b)); [lia|].
    now rewrite Hsl.
  - intros start end_ Hf Hnum.
    rewrite (@getBinary_outcome env w w1 b start end_ Hm Hf).
    unfold to_read, after_read. rewrite HFR. simpl.
    destruct start, end_; try discriminate Hnum; reflexivity.
  - intros s e Hs Hsl.
    rewrite (@getBinary_outcome env w w1 b (ANumber s) (ANumber e) Hm eq_refl).
    unfold to_read, after_read. destruct (Z.geb_spec s (blob_size b)); [lia|].
    rewrite Hsl, HFR. reflexivity.
Qed.

Lemma getBinary_missing_capabilities_witness :
  Materialises bare_env (fresh ten_instance) ten_blob (fresh ten_instance)
  /\ getBinary bare_env (ANumber 3) (ANumber 8) (AFunction (observe VBytes))
       (fresh ten_instance)
     = (Returned tt, seen (Some NoSlice, None) (fresh ten_instance))
  /\ getBinary bare_env AUndefined AUndefined (AFunction (observe VBytes))
       (fresh ten_instance)
     = (Returned tt, seen (Some NoFileReader, None) (fresh ten_instance)).
Proof.
  assert (Hm : Materialises bare_env (fresh ten_instance) ten_blob
                 (fresh ten_instance)) by (apply from_blob; reflexivity).
  assert (Hs : 3 < blob_size ten_blob) by (vm_compute; reflexivity).
  split; [exact Hm|]. split.
  - exact (proj1 (getBinary_missing_capabilities Hm) eq_refl 3 8 Hs).
  - exact (proj1 (proj2 (getBinary_missing_capabilities Hm) eq_refl)
             AUndefined AUndefined eq_refl eq_refl).
Defined.

(** ** Reading in chunks *)

Lemma firstn_plus {A} (p q : nat) (l : list A) :
  firstn (p + q) l = (firstn p l ++ firstn q (skipn p l))%list.
Proof.
  revert l. induction p as [|p IH]; intros l; [reflexivity|].
  destruct l as [|a l]; simpl.
  - now rewrite firstn_nil.
  - now rewrite IH.
Qed.

Lemma slice_bytes_concat (l : bytes) (a m z : Z) :
  0 <= a <= m -> m <= z ->
  (slice_bytes l a m ++ slice_bytes l m z)%list = slice_bytes l a z.
Proof.
  intros Ha Hm. unfold slice_bytes.
  replace (Z.to_nat (z - a)) with (Z.to_nat (m - a) + Z.to_nat (z - m))%nat
    by lia.
  rewrite firstn_plus, skipn_skipn.
  replace (Z.to_nat (m - a) + Z.to_nat a)%nat with (Z.to_nat m) by lia.
  reflexivity.
Qed.

(** X13. Reading in chunks: the bytes of [a, m) followed by the bytes of
    [m, z) are the bytes of [a, z), provided the second chunk starts below
    the size; [z] may lie beyond it. *)
Theorem getBinary_chunks_concatenate env w w1 b (a m z : Z) :
  Materialises env w b w1 ->
  has_FileReader env = true ->
  has_slice env || has_webkitSlice env || has_mozSlice env = true ->
  (forall piece, reader_error env piece = None) ->
  0 <= a <= m -> m < blob_size b -> m <= z ->
  exists x y,
    delivered (perform_all env [CallGetBinary (Some a) (Some m);
                                CallGetBinary (Some m) (Some z)] w)
    = (delivered w ++ [(None, Some (VBytes x)); (None, Some (VBytes y))])%list
    /\ delivered (perform_all env [CallGetBinary (Some a) (Some z)] w)
       = (delivered w ++ [(None, Some (VBytes (x ++ y)%list))])%list.
Proof.
  intros Hm HFR Hsl Hread Ha Hmid Hz.
  destruct (Materialises_delivered Hm) as (Hd & _ & _ & Hb).
  exists (slice_bytes (blob_bytes b) a (Z.min (blob_size b) m)),
         (slice_bytes (blob_bytes b) m (Z.min (blob_size b) z)).
  cbn [perform_all perform number_arg].
  rewrite (getBinary_bytes_in_range Hm HFR Hsl Hread) by lia.
  rewrite (getBinary_bytes_in_range Hm HFR Hsl Hread (end_ := z)) by lia.
  cbn [snd].
  match goal with
  | |- context [getBinary env _ _ _ ?w2] =>
      assert (Hm2 : Materialises env w2 b w2) by (apply from_blob; exact Hb);
      rewrite (getBinary_bytes_in_range Hm2 HFR Hsl Hread) by lia
  end.
  cbn [snd seen traced delivered]. rewrite Hd.
  split; [now rewrite <- app_assoc|].
  rewrite (Z.min_r _ m) by lia.
  rewrite slice_bytes_concat by lia. reflexivity.
Qed.

Lemma getBinary_chunks_concatenate_witness :
  Materialises browser_env (fresh ten_instance) ten_blob (fresh ten_instance)
  /\ exists x y,
       delivered (perform_all browser_env
                    [CallGetBinary (Some 2) (Some 5);
                     CallGetBinary (Some 5) (Some 20)] (fresh ten_instance))
       = [(None, Some (VBytes x)); (None, Some (VBytes y))]
       /\ delivered (perform_all browser_env
                       [CallGetBinary (Some 2) (Some 20)] (fresh ten_instance))
          = [(None, Some (VBytes (x ++ y)%list))].
Proof.
  assert (Hm : Materialises browser_env (fresh ten_instance) ten_blob
                 (fresh ten_instance)) by (apply from_blob; reflexivity).
  assert (Hmid : 5 < blob_size ten_blob) by (vm_compute; reflexivity).
  split; [exact Hm|].
  apply (@getBinary_chunks_concatenate browser_env _ _ _ 2 5 20 Hm);
    try reflexivity; try assumption; lia.
Defined.

(** ** Calls without a callback *)

(** X14. [getBinary] without a callback falls back on [defaultCallback]: an
    out-of-bounds start on a blob already in memory is thrown to the
    caller; a failed fetch is thrown inside the event handler, or only
    logged when it is a [Meteor.Error]; data that was read is dropped. *)
Theorem getBinary_without_callback env (w : World) (callback : Arg bytes) :
  truthy callback = false ->
  (forall b s e,
     blob (self w) = Some b -> blob_size b <= s ->
     getBinary env (ANumber s) (ANumber e) callback w
     = (Threw (RangeOutOfBounds (blob_size b)), w))
  /\ (forall u evt start end_,
        TransportFails env w u evt -> is_function start = false ->
        getBinary env start end_ callback w
        = (Returned tt,
           match evt with
           | MeteorError msg =>
               traced (IoConsoleError msg) (traced (IoXhrGet u) w)
           | _ => escape evt (traced (IoXhrGet u) w)
           end))
  /\ (forall b w1 start end_,
        Materialises env w b w1 ->
        has_FileReader env = true -> reader_error env b = None ->
        is_function start = false ->
        is_number start && is_number end_ = false ->
        getBinary env start end_ callback w
        = (Returned tt, traced (IoReadAsArrayBuffer b) w1)).
Proof.
  intros Hc. split; [|split].
  - intros b s e Hb Hs. unfold getBinary. simpl. rewrite Hc.
    unfold getBlob, bind, get. rewrite Hb. simpl.
    destruct (Z.geb_spec s (blob_size b)); [reflexivity|lia].
  - intros u evt start end_ Hfail Hs. unfold getBinary. rewrite Hs, Hc.
    rewrite (getBlob_transport_failure _ Hfail). simpl.
    destruct evt; reflexivity.
  - intros b w1 start end_ Hm HFR Hread Hs Hnum.
    unfold getBinary. rewrite Hs, Hc.
    apply (getBlob_then Hm).
    unfold bind, the_blob, ret.
    destruct start, end_; try discriminate Hnum; try discriminate Hs;
      rewrite HFR; simpl;
      unfold readAsArrayBuffer, bind, log_io, modify; rewrite Hread;
      reflexivity.
Qed.

Lemma getBinary_without_callback_witness :
  truthy (@AUndefined bytes) = false
  /\ blob (self (fresh ten_instance)) = Some ten_blob
  /\ blob_size ten_blob <= 12
  /\ getBinary browser_env (ANumber 12) (ANumber 20) AUndefined
       (fresh ten_instance)
     = (Threw (RangeOutOfBounds (blob_size ten_blob)), fresh ten_instance)
  /\ TransportFails browser_env (fresh remote_instance)
       "http://example.com/a.bin" (ErrorEvent "xhr")
  /\ getBinary browser_env AUndefined AUndefined AUndefined
       (fresh remote_instance)
     = (Returned tt,
        escape (ErrorEvent "xhr")
          (traced (IoXhrGet "http://example.com/a.bin")
                  (fresh remote_instance))).
Proof.
  assert (Hs : blob_size ten_blob <= 12) by (vm_compute; congruence).
  assert (Hf : TransportFails browser_env (fresh remote_instance)
                 "http://example.com/a.bin" (ErrorEvent "xhr"))
    by (repeat split).
  split; [reflexivity|]. split; [reflexivity|]. split; [exact Hs|].
  split.
  - exact (proj1 (@getBinary_without_callback browser_env
                    (fresh ten_instance) AUndefined eq_refl)
             ten_blob 12 20 eq_refl Hs).
  - split; [exact Hf|].
    exact (proj1 (proj2 (@getBinary_without_callback browser_env
                           (fresh remote_instance) AUndefined eq_refl))
             _ _ AUndefined AUndefined Hf eq_refl).
Defined.

(** ** A negative start *)

Lemma slice_from_end (b : Blob) (start end_ : Z) (t : option string) :
  - blob_size b <= start < 0 ->
  blob_size b <= end_ ->
  blob_bytes (BlobApi.slice b start (Z.min (blob_size b) end_) t)
  = skipn (Z.to_nat (blob_size b + start)) (blob_bytes b).
Proof.
  intros Hs He. unfold BlobApi.slice, JsString.rel_index. simpl.
  destruct (Z.ltb_spec start 0); [|lia].
  rewrite (Z.min_l (blob_size b) end_) by lia.
  destruct (Z.ltb_spec (blob_size b) 0); [lia|].
  rewrite Z.min_id, (Z.max_l (blob_size b + start)) by lia.
  rewrite Z.max_l by lia.
  apply firstn_all2. rewrite length_skipn.
  unfold blob_size, byte_length in *. lia.
Qed.

(** X15. [getBinary] has no lower bound on [start]: a negative start no
    smaller than minus the size, with an end at or beyond the size,
    delivers the last [-start] bytes. *)
Theorem getBinary_negative_start env w w1 b (start end_ : Z) :
  Materialises env w b w1 ->
  has_FileReader env = true ->
  has_slice env || has_webkitSlice env || has_mozSlice env = true ->
  (forall piece, reader_error env piece = None) ->
  - blob_size b <= start < 0 ->
  blob_size b <= end_ ->
  exists w2,
    getBinary env (ANumber start) (ANumber end_)
              (AFunction (observe VBytes)) w
    = (Returned tt,
       seen (None, Some (VBytes (skipn (Z.to_nat (blob_size b + start))
                                       (blob_bytes b)))) w2)
    /\ delivered w2 = delivered w.
Proof.
  intros Hm HFR Hsl Hread Hs He.
  rewrite (@getBinary_outcome env w w1 b (ANumber start) (ANumber end_)
             Hm eq_refl).
  unfold to_read, after_read.
  destruct (Z.geb_spec start (blob_size b)); [lia|].
  rewrite Hsl, HFR, Hread. simpl negb. cbn iota.
  rewrite slice_from_end by assumption.
  eexists. split; [reflexivity|].
  exact (proj1 (Materialises_delivered Hm)).
Qed.

Lemma getBinary_negative_start_witness :
  Materialises browser_env (fresh ten_instance) ten_blob (fresh ten_instance)
  /\ - blob_size ten_blob <= -3 < 0
  /\ blob_size ten_blob <= 10
  /\ exists w2,
       getBinary browser_env (ANumber (-3)) (ANumber 10)
         (AFunction (observe VBytes)) (fresh ten_instance)
       = (Returned tt,
          seen (None, Some (VBytes (skipn (Z.to_nat (blob_size ten_blob + -3))
                                          (blob_bytes ten_blob)))) w2)
       /\ delivered w2 = delivered (fresh ten_instance).
Proof.
  assert (Hm : Materialises browser_env (fresh ten_instance) ten_blob
                 (fresh ten_instance)) by (apply from_blob; reflexivity).
  assert (Hs : - blob_size ten_blob <= -3 < 0)
    by (vm_compute; split; congruence).
  assert (He : blob_size ten_blob <= 10) by (vm_compute; congruence).
  split; [exact Hm|]. split; [exact Hs|]. split; [exact He|].
  apply (@getBinary_negative_start browser_env _ _ _ (-3) 10 Hm);
    try reflexivity; assumption.
Defined.

(** ** Instances the constructor returns *)

Lemma DataMan_has_source env (data : JsData) (hint : option string)
    (o : Instance) :
  DataMan env data hint = Returned o ->
  blob o <> None
  \/ truthy_str (dataUri o) = true
  \/ truthy_str (url o) = true.
Proof.
  unfold DataMan.
  destruct (if has_File env then as_File data else None) as [f|];
    [intros [= <-]; left; discriminate|].
  destruct (if has_Blob env then as_Blob data else None) as [b|];
    [intros [= <-]; left; discriminate|].
  destruct ((has_ArrayBuffer env && instanceof_ArrayBuffer data)
            || EJSON_isBinary env data).
  { destruct (negb (has_Blob env)); [discriminate|].
    intros [= <-]; left; discriminate. }
  destruct data as [| | | |s| | | |]; try discriminate.
  destruct s as [|c s]; [discriminate|].
  destruct (String.eqb (JsString.slice (String c s) 0 5) "data:").
  { intros [= <-]. right. left. reflexivity. }
  destruct (String.eqb (JsString.slice (String c s) 0 5) "http:"
            || String.eqb (JsString.slice (String c s) 0 6) "https:");
    [|discriminate].
  intros [= <-]. right. right. reflexivity.
Qed.

(** X8. On an instance the constructor returned, [getBlob] either throws to
    its caller, having delivered nothing and changed nothing on the
    instance, or returns having invoked the callback exactly once; it
    never returns without calling back. *)
Theorem getBlob_on_constructed env (data : JsData) (hint : option string)
    (o : Instance) :
  DataMan env data hint = Returned o ->
  let r := getBlob env (observe VBlob) (fresh o) in
  (exists e, fst r = Threw e /\ delivered (snd r) = []
             /\ self (snd r) = o)
  \/ (fst r = Returned tt /\ exists d, delivered (snd r) = [d]).
Proof.
  intros Hcons r. subst r.
  destruct (getBlob_cases env (fresh o))
    as [(b & w1 & Hm) | [(u & evt & Hf) | [(e & Hthrow) | Hnone]]].
  - right. rewrite (getBlob_observed Hm). simpl.
    rewrite (proj1 (Materialises_delivered Hm)). simpl.
    split; [reflexivity|]. eexists. reflexivity.
  - right. rewrite (getBlob_transport_failure _ Hf).
    split; [reflexivity|]. eexists. reflexivity.
  - left. exists e. rewrite Hthrow. auto.
  - exfalso. destruct Hnone as (Hb & Hd & Hu & _).
    destruct (DataMan_has_source _ _ _ Hcons) as [H|[H|H]];
      simpl in *; congruence.
Qed.

Lemma getBlob_on_constructed_witness :
  DataMan browser_env (DString "http://example.com/a.bin") None
  = Returned remote_instance
  /\ fst (getBlob browser_env (observe VBlob) (fresh remote_instance))
     = Returned tt
  /\ delivered (snd (getBlob browser_env (observe VBlob)
                       (fresh remote_instance)))
     = [(Some (ErrorEvent "xhr"), None)].
Proof.
  assert (Hc : DataMan browser_env (DString "http://example.com/a.bin") None
               = Returned remote_instance) by reflexivity.
  split; [exact Hc|].
  destruct (getBlob_on_constructed _ _ _ Hc) as [(e & He & _)|(Hr & _)].
  - vm_compute in He. discriminate He.
  - split; [exact Hr|]. vm_compute. reflexivity.
Defined.

(** ** The cached size *)

Lemma leaves_size_async (m : M World unit) :
  leaves_size m -> leaves_size (async m).
Proof. intros H w. rewrite async_self. apply H. Qed.

Lemma leaves_size_bind {A B} (m : M World A) (k : A -> M World B) :
  leaves_size m -> (forall a, leaves_size (k a)) -> leaves_size (bind m k).
Proof.
  intros Hm Hk w. specialize (Hm w). unfold bind.
  destruct (m w) as [[a|e] w']; simpl in *; [|exact Hm].
  now rewrite Hk.
Qed.

Lemma leaves_size_getBlob env (k : Callback World Blob) :
  (forall e r, leaves_size (k e r)) -> leaves_size (getBlob env k).
Proof.
  intros Hk w. unfold getBlob, bind, get.
  destruct (blob (self w)); [apply Hk|].
  destruct (truthy_str (dataUri (self w))).
  - unfold dataURItoBlob, bind, log_io, modify.
    destruct (Base64.decode _); [|reflexivity].
    destruct (has_Blob env); [|reflexivity].
    simpl. etransitivity; [apply Hk|reflexivity].
  - destruct (truthy_str (url (self w))); [|reflexivity].
    unfold xhr_get, bind, log_io, modify.
    destruct (xhr_response env _); rewrite async_self;
      unfold bind, update_self, modify; simpl;
      (etransitivity; [apply Hk|reflexivity]).
Qed.

Lemma leaves_size_const {A} (m : M World A) :
  (forall w, self (snd (m w)) = self w) -> leaves_size m.
Proof. intros H w. now rewrite H. Qed.

Lemma leaves_size_read env b (onload : bytes -> M World unit) onerror :
  (forall r, leaves_size (onload r)) -> (forall e, leaves_size (onerror e)) ->
  leaves_size (readAsArrayBuffer env b onload onerror).
Proof.
  intros Hl He. unfold readAsArrayBuffer.
  apply leaves_size_bind; [now apply leaves_size_const|]. intros _.
  destruct (reader_error env b); apply leaves_size_async; auto.
Qed.

Lemma leaves_size_readURL env b (onload : string -> M World unit) onerror :
  (forall r, leaves_size (onload r)) -> (forall e, leaves_size (onerror e)) ->
  leaves_size (readAsDataURL env b onload onerror).
Proof.
  intros Hl He. unfold readAsDataURL.
  apply leaves_size_bind; [now apply leaves_size_const|]. intros _.
  destruct (reader_error env b); apply leaves_size_async; auto.
Qed.

Lemma leaves_size_observe {R} (inj : R -> Value) e r :
  leaves_size (observe inj e r).
Proof. now apply leaves_size_const. Qed.

Lemma leaves_size_the_blob (b : option Blob) : leaves_size (the_blob b).
Proof. apply leaves_size_const. intros w. destruct b; reflexivity. Qed.

(** Every call but [size] leaves the cached size alone. *)
Lemma leaves_size_perform env (c : Call) :
  c <> CallSize -> leaves_size (perform env c).
Proof.
  destruct c as [|s e|f| |]; intros Hc; [| | | |congruence]; unfold perform.
  - apply leaves_size_getBlob. intros; apply leaves_size_observe.
  - unfold getBinary.
    replace (is_function (@number_arg bytes s)) with false
      by (destruct s; reflexivity).
    simpl. apply leaves_size_getBlob.
    intros [err|] r; [apply leaves_size_observe|].
    apply leaves_size_bind; [apply leaves_size_the_blob|]. intros b.
    assert (Hread : forall piece,
               leaves_size
                 (if negb (has_FileReader env)
                  then call (AFunction (observe VBytes))
                            (Some NoFileReader) None
                  else readAsArrayBuffer env piece
                         (fun result => call (AFunction (observe VBytes))
                                             None (Some result))
                         (fun err => call (AFunction (observe VBytes))
                                          (Some err) None))).
    { intros piece. destruct (negb (has_FileReader env));
        [apply leaves_size_observe|].
      apply leaves_size_read; intros; apply leaves_size_observe. }
    destruct s as [n|]; simpl; [|apply Hread].
    destruct e as [m|]; simpl; [|apply Hread].
    destruct (n >=? blob_size b); [apply leaves_size_observe|].
    destruct (has_slice env || has_webkitSlice env || has_mozSlice env);
      [|apply leaves_size_observe].
    intros w. unfold bind, get. apply Hread.
  - unfold saveAs. destruct (negb (has_window env));
      [now apply leaves_size_const|].
    apply leaves_size_getBlob. intros [err|] r; [now apply leaves_size_const|].
    apply leaves_size_bind; [apply leaves_size_the_blob|]. intros b.
    unfold window_saveAs. destruct (has_window_saveAs env);
      now apply leaves_size_const.
  - unfold getDataUri. simpl.
    destruct (negb (has_FileReader env)); [apply leaves_size_observe|].
    apply leaves_size_getBlob. intros [err|] r; [apply leaves_size_observe|].
    apply leaves_size_bind; [apply leaves_size_the_blob|]. intros b.
    apply leaves_size_readURL; intros; [|apply leaves_size_observe].
    apply leaves_size_bind; [intros w; reflexivity|].
    intros _. apply leaves_size_observe.
Qed.

(** What [size] with an observing callback does to the instance. *)
Lemma size_self env (w : World) :
  self (snd (size env (AFunction (observe VNumber)) w)) = self w
  \/ (_size (self w) = None
      /\ exists b w1, Materialises env w b w1
         /\ self (snd (size env (AFunction (observe VNumber)) w))
            = set_size (blob_size b) (self w1)).
Proof.
  destruct (_size (self w)) as [n|] eqn:Hn.
  { left. now rewrite (@size_cached env (AFunction (observe VNumber)) w n). }
  destruct (getBlob_cases env w)
    as [(b & w1 & Hm) | [(u & evt & Hf) | [(e & Hthrow) | Hnone]]].
  - right. split; [reflexivity|]. exists b, w1. split; [exact Hm|].
    now rewrite (size_first Hm Hn).
  - left. unfold size. simpl. unfold bind at 1. unfold get. rewrite Hn.
    unfold bind at 1. rewrite (getBlob_transport_failure _ Hf). reflexivity.
  - left. unfold size. simpl. unfold bind at 1. unfold get. rewrite Hn.
    unfold bind at 1. rewrite Hthrow. reflexivity.
  - left. destruct Hnone as (_ & _ & _ & Hk).
    unfold size. simpl. unfold bind at 1. unfold get. rewrite Hn.
    unfold bind at 1. rewrite Hk. reflexivity.
Qed.

Lemma perform_size_cache env (c : Call) (w : World) :
  (forall n, _size (self w) = Some n ->
             _size (self (snd (perform env c w))) = Some n)
  /\ (size_sound (self w) -> size_sound (self (snd (perform env c w)))).
Proof.
  assert (Hother : c <> CallSize ->
    (forall n, _size (self w) = Some n ->
               _size (self (snd (perform env c w))) = Some n)
    /\ (size_sound (self w) -> size_sound (self (snd (perform env c w))))).
  { intros Hc. pose proof (keeps_perform env c w) as (Hblob & _).
    pose proof (@leaves_size_perform env c Hc w) as Hsame.
    split; [intros n Hn; now rewrite Hsame|].
    intros Hsound n Hn. rewrite Hsame in Hn.
    destruct (Hsound n Hn) as (b & Hb & ->). eauto. }
  destruct c as [|s e|f| |]; try (apply Hother; discriminate).
  clear Hother.
  assert (Hperf : self (snd (perform env CallSize w))
                  = self (snd (size env (AFunction (observe VNumber)) w))).
  { unfold perform, bind, ret.
    destruct (size env (AFunction (observe VNumber)) w) as [[r|e] w'];
      reflexivity. }
  rewrite Hperf.
  destruct (size_self env w) as [-> | (Hn & b & w1 & Hm & ->)].
  - auto.
  - split; [intros n Hsome; congruence|].
    intros _ n Hsome. simpl in Hsome. injection Hsome as <-.
    exists b. simpl. split; [|reflexivity].
    exact (proj1 (Materialises_self Hm)).
Qed.

(** X17. The cached size of a browser instance: over any sequence of accessor
    calls, a size that is cached never changes, and a cached size that is
    the size of the cached blob stays so. *)
Theorem client_size_cache env (cs : list Call) (w : World) :
  (forall n, _size (self w) = Some n ->
             _size (self (perform_all env cs w)) = Some n)
  /\ (size_sound (self w) -> size_sound (self (perform_all env cs w))).
Proof.
  revert w. induction cs as [|c cs IH]; intros w; simpl; [auto|].
  destruct (perform_size_cache env c w) as (Hkeep & Hsound).
  destruct (IH (snd (perform env c w))) as (Hkeep' & Hsound').
  split; auto.
Qed.

Lemma client_size_cache_witness :
  _size (self (perform_all browser_env [CallSize] (fresh hello_instance)))
  = Some 5
  /\ _size (self (perform_all browser_env
                    [CallGetDataUri; CallSize; CallGetBinary (Some 1) (Some 3)]
                    (perform_all browser_env [CallSize]
                       (fresh hello_instance))))
     = Some 5.
Proof.
  assert (H : _size (self (perform_all browser_env [CallSize]
                             (fresh hello_instance))) = Some 5)
    by (vm_compute; reflexivity).
  split; [exact H|].
  exact (proj1 (client_size_cache browser_env
                  [CallGetDataUri; CallSize; CallGetBinary (Some 1) (Some 3)]
                  (perform_all browser_env [CallSize] (fresh hello_instance)))
               5 H).
Defined.

(** ** The buffer variant: size, caches and plain accessors *)

Lemma server_perform_length (c : Server.Call) (w : Server.World) :
  length_read_once w -> length_read_once (snd (Server.perform c w)).
Proof.
  unfold length_read_once. intros H. destruct c; unfold Server.perform.
  - unfold Server.getBuffer, bind, get. simpl. exact H.
  - unfold Server.getDataUri, bind, get.
    destruct (truthy_str (Server.dataUri (Server.self w))); [exact H|].
    destruct (Server._type (Server.self w)) as [t|]; [|exact H].
    destruct (JsString.truthy t); exact H.
  - unfold Server.size, bind, get.
    destruct (Server._size (Server.self w)) as [n|] eqn:Hn.
    + simpl. rewrite Hn. exact H.
    + simpl. rewrite H. auto.
Qed.

Lemma server_perform_all_length (cs : list Server.Call) (w : Server.World) :
  length_read_once w -> length_read_once (Server.perform_all cs w).
Proof.
  revert w. induction cs as [|c cs IH]; intros w H; simpl; [exact H|].
  apply IH. now apply server_perform_length.
Qed.

(** X19. After any sequence of accessor calls on a buffer instance, [size]
    hands its callback the length of the constructor's buffer, and that
    length has been read from the buffer exactly once. *)
Theorem Buffer_size (buf : bytes) (t : option string)
    (calls : list Server.Call) :
  let w := Server.perform_all calls
             (Server.fresh (Server.DataManBuffer buf t)) in
  let r := Server.size (Server.observe VNumber) w in
  fst r = Returned tt
  /\ Server.delivered (snd r)
     = (Server.delivered w ++ [(None, Some (VNumber (byte_length buf)))])%list
  /\ Server.length_reads (snd r) = 1%nat.
Proof.
  intros w r.
  assert (Hinv : length_read_once w)
    by (apply server_perform_all_length; reflexivity).
  destruct (server_perform_all_fields calls
              (Server.fresh (Server.DataManBuffer buf t))) as (Hb & _).
  fold w in Hb. simpl in Hb.
  subst r. unfold length_read_once in Hinv.
  unfold Server.size, bind, get.
  destruct (Server._size (Server.self w)) as [n|].
  - destruct Hinv as (-> & Hr). rewrite Hb. simpl. auto.
  - simpl. rewrite Hb, Hinv. auto.
Qed.

Lemma server_perform_caches (c : Server.Call) (w : Server.World) :
  (forall n, Server._size (Server.self w) = Some n ->
             Server._size (Server.self (snd (Server.perform c w))) = Some n)
  /\ (forall u, Server.dataUri (Server.self w) = Some u ->
                JsString.truthy u = true ->
                Server.dataUri (Server.self (snd (Server.perform c w)))
                = Some u).
Proof.
  destruct c; unfold Server.perform.
  - unfold Server.getBuffer, bind, get. simpl. auto.
  - unfold Server.getDataUri, bind, get.
    destruct (Server.dataUri (Server.self w)) as [u|] eqn:Hu.
    + simpl. destruct (JsString.truthy u) eqn:Ht.
      * simpl. rewrite Hu. auto.
      * split; [|intros u' [= <-]; congruence].
        destruct (Server._type (Server.self w)) as [t|]; [|auto].
        destruct (JsString.truthy t); auto.
    + simpl. split; [|discriminate].
      destruct (Server._type (Server.self w)) as [t|]; [|auto].
      destruct (JsString.truthy t); auto.
  - unfold Server.size, bind, get.
    destruct (Server._size (Server.self w)) as [n|] eqn:Hn.
    + simpl. rewrite Hn. auto.
    + simpl. split; [discriminate|auto].
Qed.

(** X20. The caches of a buffer instance are written once: over any sequence
    of accessor calls, a cached size and a cached (non-empty) data URI
    never change. *)
Theorem Buffer_caches_never_change (cs : list Server.Call)
    (w : Server.World) :
  (forall n, Server._size (Server.self w) = Some n ->
             Server._size (Server.self (Server.perform_all cs w)) = Some n)
  /\ (forall u, Server.dataUri (Server.self w) = Some u ->
                JsString.truthy u = true ->
                Server.dataUri (Server.self (Server.perform_all cs w))
                = Some u).
Proof.
  revert w. induction cs as [|c cs IH]; intros w; simpl; [auto|].
  destruct (server_perform_caches c w) as (Hs & Hd).
  destruct (IH (snd (Server.perform c w))) as (Hs' & Hd').
  split; auto.
Qed.

Lemma Buffer_caches_never_change_witness :
  Server.dataUri (Server.self
    (Server.perform_all [Server.CallGetDataUri]
       (Server.fresh (Server.DataManBuffer hello (Some "text/plain")))))
  = Some "data:text/plain;base64,SGVsbG8="
  /\ Server.dataUri (Server.self
       (Server.perform_all
          [Server.CallSize; Server.CallGetDataUri; Server.CallGetBuffer]
          (Server.perform_all [Server.CallGetDataUri]
             (Server.fresh (Server.DataManBuffer hello (Some "text/plain"))))))
     = Some "data:text/plain;base64,SGVsbG8=".
Proof.
  split; [reflexivity|].
  exact (proj2 (Buffer_caches_never_change
                  [Server.CallSize; Server.CallGetDataUri; Server.CallGetBuffer]
                  (Server.perform_all [Server.CallGetDataUri]
                     (Server.fresh
                        (Server.DataManBuffer hello (Some "text/plain")))))
               _ eq_refl eq_refl).
Defined.

(** X21. After any sequence of accessor calls on a buffer instance,
    [getBuffer] hands over the constructor's buffer and [type] returns the
    constructor's type. *)
Theorem Buffer_plain_accessors (buf : bytes) (t : option string)
    (calls : list Server.Call) :
  let w := Server.perform_all calls
             (Server.fresh (Server.DataManBuffer buf t)) in
  Server.getBuffer (Server.observe VBytes) w
  = (Returned tt, Server.seen (None, Some (VBytes buf)) w)
  /\ Server.type (Server.self w) = t.
Proof.
  intros w.
  destruct (server_perform_all_fields calls
              (Server.fresh (Server.DataManBuffer buf t))) as (Hb & Ht).
  fold w in Hb, Ht. simpl in Hb, Ht.
  unfold Server.getBuffer, bind, get, Server.type. rewrite Hb, Ht.
  split; reflexivity.
Qed.

(** ** A fetch that fails *)

(** X7. A failed fetch caches nothing: the instance is unchanged, and the
    next [getBlob] sends the request again. *)
Theorem failed_fetch_is_not_cached env (w : World) (u : string) (evt : Err) :
  TransportFails env w u evt ->
  let w' := snd (getBlob env (observe VBlob) w) in
  TransportFails env w' u evt
  /\ self w' = self w
  /\ io (snd (getBlob env (observe VBlob) w'))
     = (io w ++ [IoXhrGet u; IoXhrGet u])%list.
Proof.
  intros Hf w'.
  assert (Hw' : w' = seen (Some evt, None) (traced (IoXhrGet u) w)).
  { unfold w'. now rewrite (getBlob_transport_failure _ Hf). }
  assert (Hf' : TransportFails env w' u evt).
  { rewrite Hw'. exact Hf. }
  split; [exact Hf'|]. split; [now rewrite Hw'|].
  rewrite (getBlob_transport_failure _ Hf'). rewrite Hw'. simpl.
  now rewrite <- app_assoc.
Qed.

Lemma failed_fetch_is_not_cached_witness :
  TransportFails browser_env (fresh remote_instance)
    "http://example.com/a.bin" (ErrorEvent "xhr")
  /\ io (snd (getBlob browser_env (observe VBlob)
                (snd (getBlob browser_env (observe VBlob)
                        (fresh remote_instance)))))
     = [IoXhrGet "http://example.com/a.bin";
        IoXhrGet "http://example.com/a.bin"].
Proof.
  assert (Hf : TransportFails browser_env (fresh remote_instance)
                 "http://example.com/a.bin" (ErrorEvent "xhr"))
    by (repeat split).
  split; [exact Hf|].
  exact (proj2 (proj2 (failed_fetch_is_not_cached Hf))).
Defined.

(** ** Bytes in, bytes out *)

(** X16. Bytes in, bytes out: an instance built from an [ArrayBuffer] holding
    [l] keeps the type hint, hands exactly [l] to [getBinary(callback)] and
    the length of [l] to [size]. *)
Theorem array_buffer_read_back env (l : bytes) (hint : option string) :
  has_ArrayBuffer env = true ->
  has_Blob env = true ->
  has_FileReader env = true ->
  (forall piece, reader_error env piece = None) ->
  exists o,
    DataMan env (DArrayBuffer l) hint = Returned o
    /\ type o = hint
    /\ delivered (snd (getBinary env (AFunction (observe VBytes))
                         AUndefined AUndefined (fresh o)))
       = [(None, Some (VBytes l))]
    /\ delivered (snd (size env (AFunction (observe VNumber)) (fresh o)))
       = [(None, Some (VNumber (byte_length l)))].
Proof.
  intros HAB HB HFR Hread.
  set (o := set_type hint (set_blob (BlobApi.create l hint) empty)).
  exists o.
  assert (Hm : Materialises env (fresh o) (BlobApi.create l hint) (fresh o))
    by (apply from_blob; reflexivity).
  split; [|split; [reflexivity|split]].
  - unfold DataMan. simpl as_File. simpl as_Blob.
    destruct (has_File env); rewrite HB, HAB; reflexivity.
  - rewrite (getBinary_function_first _ AUndefined AUndefined Hm HFR
               (Hread _)).
    reflexivity.
  - rewrite (size_first Hm) by reflexivity. reflexivity.
Qed.

Lemma array_buffer_read_back_witness :
  exists o,
    DataMan browser_env (DArrayBuffer hello) (Some "text/plain") = Returned o
    /\ type o = Some "text/plain"
    /\ delivered (snd (getBinary browser_env (AFunction (observe VBytes))
                         AUndefined AUndefined (fresh o)))
       = [(None, Some (VBytes hello))]
    /\ delivered (snd (size browser_env (AFunction (observe VNumber))
                         (fresh o)))
       = [(None, Some (VNumber (byte_length hello)))].
Proof.
  exact (@array_buffer_read_back browser_env hello (Some "text/plain")
           eq_refl eq_refl eq_refl (fun _ => eq_refl)).
Defined.
